(** * Donation tracking service: token service, login, payment webhook, checkout

    A shallow embedding of [app/jwt.py] and of the [/login/],
    [/stripe/webhook] and [/causes/{id}/create-checkout-session] handlers of
    [app/main.py], with the properties of the specification stated and
    settled against it.

    Conventions.
    - Python values read out of a decoded JSON document are terms of [json];
      subscripting that fails raises, as in Python.
    - A handler is a computation in the monad [M]: it threads the unit of work
      of one request (the database session and the requests sent to the
      payment provider) and may raise.  [run] opens the session on a stored
      database, runs the handler and closes the session, which discards
      whatever was added and not committed.
    - Time is in whole seconds since the epoch, as [Z].
    - Library code that is not part of the repository (the provider's SDK, the
      password verifier of [app.utils], the database driver's handling of
      ill-typed parameters) is a field of [Externals]. *)

From Stdlib Require Import ZArith List String Ascii Bool QArith Lia SpecFloat.
Import ListNotations.

Open Scope string_scope.
Open Scope Z_scope.

(** ** Python values *)

(** A decoded JSON document.  An object is the list of its items, one per key,
    in insertion order.  Numbers are integers of any size, as [json.loads]
    reads them; a number written with a fraction or an exponent is outside
    the model. *)
#[local] Unset Elimination Schemes.
Inductive json : Type :=
| JNull
| JBool (b : bool)
| JInt (n : Z)
| JStr (s : string)
| JList (items : list json)
| JObj (fields : list (string * json)).
#[local] Set Elimination Schemes.

Definition dict := list (string * json).

(** Exceptions the modelled code raises or lets through. *)
Inductive exn : Type :=
| HTTPException (status_code : Z) (detail : string)
| KeyError (key : string)
| TypeError
| ValueError
| ValidationError
| OverflowError
| SignatureVerificationError
| JWTError
| DBAPIError.

Inductive result (A : Type) : Type :=
| Ok (a : A)
| Raise (e : exn).
Arguments Ok {A} a.
Arguments Raise {A} e.

(** [d.get(k)] *)
Fixpoint dict_get (d : dict) (k : string) : option json :=
  match d with
  | [] => None
  | (k', v) :: rest => if String.eqb k' k then Some v else dict_get rest k
  end.

(** [d.update({k: v})]: an existing key keeps its position. *)
Fixpoint dict_update (d : dict) (k : string) (v : json) : dict :=
  match d with
  | [] => [(k, v)]
  | (k', v') :: rest =>
      if String.eqb k' k then (k', v) :: rest else (k', v') :: dict_update rest k v
  end.

(** [v[k]] with a string key: [KeyError] on a missing key, [TypeError] on
    anything that is not a mapping. *)
Definition py_getitem (v : json) (k : string) : result json :=
  match v with
  | JObj fields =>
      match dict_get fields k with
      | Some x => Ok x
      | None => Raise (KeyError k)
      end
  | _ => Raise TypeError
  end.

(** [v[k1][k2]...[kn]], evaluated left to right. *)
Fixpoint py_path (v : json) (ks : list string) : result json :=
  match ks with
  | [] => Ok v
  | k :: rest =>
      match py_getitem v k with
      | Ok x => py_path x rest
      | Raise e => Raise e
      end
  end.

(** [v == s] for a string literal [s]. *)
Definition py_eq_str (v : json) (s : string) : bool :=
  match v with
  | JStr t => String.eqb t s
  | _ => false
  end.

(** A Python [float] is an IEEE 754 binary64 number, here a [spec_float] of
    precision 53 and maximal exponent 1024. *)

(** The quotient of two integers rounded once, to the nearest double with
    ties to even, as [int.__truediv__] computes it; an infinity stands for a
    quotient too large for a double. *)
Definition int_truediv (a : Z) (d : positive) : spec_float :=
  match a with
  | Z0 => S754_zero false
  | Zpos m => SFdiv 53 1024 (S754_finite false m 0) (S754_finite false d 0)
  | Zneg m => SFdiv 53 1024 (S754_finite true m 0) (S754_finite false d 0)
  end.

(** [v / d], Python's true division by the positive integer literal [d]:
    the nearest double for an [int] ([bool] is a subclass of [int]),
    [OverflowError] when the quotient is too large for a double, [TypeError]
    for a value that is not a number. *)
Definition py_truediv (v : json) (d : positive) : result spec_float :=
  let quotient (a : Z) :=
    match int_truediv a d with
    | S754_infinity _ => Raise OverflowError
    | x => Ok x
    end in
  match v with
  | JInt a => quotient a
  | JBool b => quotient (if b then 1 else 0)
  | _ => Raise TypeError
  end.

(** The number a finite double denotes. *)
Definition float_value (x : spec_float) : option Q :=
  match x with
  | S754_zero _ => Some 0%Q
  | S754_finite s m e =>
      Some (inject_Z (if s then Zneg m else Zpos m) * (2 # 1) ^ e)%Q
  | _ => None
  end.

(** ** Settings ([app/settings.py]) *)

Record Settings : Type := {
  STRIPE_PUBLISHABLE_KEY : string;
  STRIPE_SECRET_KEY : string;
  STRIPE_ENDPOINT_SECRET : string;
  DATABASE_URL : string;
  SERVER_URL : string;
  SECRET_KEY : string
}.

(** ** Tables ([app/models.py]) *)

Module User.
Record t : Type := {
  id : Z;
  username : string;
  email : string;
  password : string
}.
End User.

Module Cause.
Record t : Type := {
  id : Z;
  name : string;
  tagline : string;
  description : string;
  end_date : Z;
  banner_image : option string;
  cover_image : option string
}.
End Cause.

Module Donation.
(** [id] is [None] until the row is flushed. *)
Record t : Type := {
  id : option Z;
  amount : spec_float;
  created_at : Z;
  donor_id : Z;
  cause_id : Z
}.
End Donation.

(** The persisted state: the three tables and the sequence that numbers new
    donations. *)
Record database : Type := {
  users : list User.t;
  causes : list Cause.t;
  donations : list Donation.t;
  donation_seq : Z
}.

(** The first row of each query the handlers make. *)
Definition get_Cause (db : database) (n : Z) : option Cause.t :=
  find (fun c => Cause.id c =? n) (causes db).

Definition first_User_by_id (db : database) (n : Z) : option User.t :=
  find (fun u => User.id u =? n) (users db).

Definition first_User_by_email (db : database) (e : string) : option User.t :=
  find (fun u => String.eqb (User.email u) e) (users db).

Definition first_User_by_username (db : database) (name : string) : option User.t :=
  find (fun u => String.eqb (User.username u) name) (users db).

(** ** Responses *)

Inductive response : Type :=
| Response (status_code : Z)
| RedirectResponse (url : string) (status_code : Z).

(** The status the client receives when an exception leaves a handler: the
    status of an [HTTPException], and 500 for any other. *)
Definition error_status (e : exn) : Z :=
  match e with
  | HTTPException c _ => c
  | _ => 500
  end.

(** The status the client receives from a handler that answers with a
    [response]. *)
Definition http_status (r : result response) : Z :=
  match r with
  | Ok (Response c) => c
  | Ok (RedirectResponse _ c) => c
  | Raise e => error_status e
  end.

(** ** The payment provider's checkout request *)

Record checkout_request : Type := {
  payment_method_types : list string;
  mode : string;
  success_url : string;
  cancel_url : string;
  line_items : list (string * Z);
  metadata : json
}.

(** ** What the repository calls and does not contain *)

Record Externals : Type := {
  (** [Settings()], read from the environment at start-up. *)
  settings : Settings;
  (** [stripe.Webhook.construct_event(payload, sig_header, secret)] called at
      time [now]: the event, or [ValueError] (undecodable body), or
      [SignatureVerificationError].  The SDK reads the clock: it refuses a
      header whose timestamp is more than its tolerance (300 s) before
      [now]. *)
  construct_event : list Byte.byte -> option string -> string -> Z -> result json;
  (** [stripe.checkout.Session.create(...)]: the hosted session's url, or the
      message of the exception it raised. *)
  checkout_Session_create : checkout_request -> string + string;
  (** [app.utils.verify_password(plain, hashed)]; the module is not among the
      sources. *)
  verify_password : string -> string -> bool;
  (** Whether the driver behind [DATABASE_URL] takes the [int] as an INTEGER
      parameter; it refuses one outside the range of the column type. *)
  integer_in_range : Z -> bool;
  (** What that driver does with a value that is not an [int] bound to an
      INTEGER parameter: the integer it compares with, or [None] when it
      refuses the value. *)
  coerce_integer : json -> option Z;
  (** The same for a value that is not a [str] bound to a VARCHAR
      parameter. *)
  coerce_text : json -> option string;
  (** Python's [int(s)] for a string [s]: the integer it spells, or [None]
      for [ValueError]. *)
  int_of_str : string -> option Z
}.

(** ** The unit of work of one request *)

Record session : Type := {
  store : database;
  pending : list Donation.t;
  sent : list checkout_request
}.

Definition M (A : Type) : Type := session -> result A * session.

Definition ret {A : Type} (a : A) : M A := fun s => (Ok a, s).

Definition raise {A : Type} (e : exn) : M A := fun s => (Raise e, s).

Definition lift {A : Type} (r : result A) : M A := fun s => (r, s).

Definition bind {A B : Type} (m : M A) (k : A -> M B) : M B :=
  fun s =>
    match m s with
    | (Ok a, s') => k a s'
    | (Raise e, s') => (Raise e, s')
    end.

Notation "x <- m ;; k" := (bind m (fun x => k))
  (at level 61, m at next level, right associativity).
Notation "m ;;; k" := (bind m (fun _ => k))
  (at level 61, right associativity).

(** INSERT of the pending rows, each numbered from the sequence. *)
Fixpoint flush (rows : list Donation.t) (db : database) : database :=
  match rows with
  | [] => db
  | d :: rest =>
      flush rest
        {| users := users db;
           causes := causes db;
           donations :=
             donations db ++
             [ {| Donation.id := Some (donation_seq db);
                  Donation.amount := Donation.amount d;
                  Donation.created_at := Donation.created_at d;
                  Donation.donor_id := Donation.donor_id d;
                  Donation.cause_id := Donation.cause_id d |} ];
           donation_seq := donation_seq db + 1 |}
  end.

(** [session.add(row)] *)
Definition session_add (d : Donation.t) : M unit :=
  fun s =>
    (Ok tt, {| store := store s; pending := pending s ++ [d]; sent := sent s |}).

(** [await session.commit()] *)
Definition session_commit : M unit :=
  fun s =>
    (Ok tt, {| store := flush (pending s) (store s); pending := []; sent := sent s |}).

(** One request: [get_session] opens a session on the stored database, the
    handler runs, and leaving the [async with] block closes the session,
    which drops what is still pending. *)
Definition run {A : Type} (m : M A) (db : database)
  : result A * database * list checkout_request :=
  let '(r, s) := m {| store := db; pending := []; sent := [] |} in
  (r, store s, sent s).

(** ** Formatting a time ([datetime.strftime]) *)

Definition digit (n : Z) : string :=
  String (ascii_of_nat (48 + Z.to_nat n)) "".

(** The [w] low decimal digits of [n], zero-padded. *)
Fixpoint zfill (w : nat) (n : Z) : string :=
  match w with
  | O => ""
  | S w' => zfill w' (n / 10) ++ digit (n mod 10)
  end.

(** Proleptic Gregorian date of a day counted from 1970-01-01. *)
Definition civil_from_days (z : Z) : Z * Z * Z :=
  let z := z + 719468 in
  let era := z / 146097 in
  let doe := z - era * 146097 in
  let yoe := (doe - doe / 1460 + doe / 36524 - doe / 146096) / 365 in
  let doy := doe - (365 * yoe + yoe / 4 - yoe / 100) in
  let mp := (5 * doy + 2) / 153 in
  let d := doy - (153 * mp + 2) / 5 + 1 in
  let m := if mp <? 10 then mp + 3 else mp - 9 in
  let y := yoe + era * 400 + (if m <=? 2 then 1 else 0) in
  (y, m, d).

(** [t.strftime("%Y-%m-%d %H:%M:%S")] for years of four digits. *)
Definition strftime (t : Z) : string :=
  let '(y, m, d) := civil_from_days (t / 86400) in
  let s := t mod 86400 in
  zfill 4 y ++ "-" ++ zfill 2 m ++ "-" ++ zfill 2 d ++ " " ++
  zfill 2 (s / 3600) ++ ":" ++ zfill 2 (s mod 3600 / 60) ++ ":" ++ zfill 2 (s mod 60).

(** ** Signed tokens ([jose.jwt]) *)

(** A compact token is determined by the claims it carries and by the key and
    algorithm that signed it; any other string is [Malformed].  Forging a
    signature is not modelled. *)
Inductive token : Type :=
| Signed (claims : dict) (key : string) (algorithm : string)
| Malformed (text : string).

(** [jwt.encode(claims, key, algorithm)] *)
Definition jwt_encode (claims : dict) (key : string) (algorithm : string) : token :=
  Signed claims key algorithm.

(** [int(v)], as the library applies it to a time claim: an [int] is itself,
    a [bool] is 0 or 1, a string is read by [int_of_str] ([ValueError] when it
    spells no integer), and [None], a list or an object is a [TypeError]. *)
Definition py_int (int_of_str : string -> option Z) (v : json) : result Z :=
  match v with
  | JInt n => Ok n
  | JBool b => Ok (if b then 1 else 0)
  | JStr s =>
      match int_of_str s with
      | Some n => Ok n
      | None => Raise ValueError
      end
  | _ => Raise TypeError
  end.

(** [_validate_iat], [_validate_nbf], [_validate_exp]: an absent claim
    passes; a present one is converted with [int], a [ValueError] of the
    conversion becoming a [JWTError] and any other exception leaving as it
    is; the integer must satisfy [check]. *)
Definition validate_time_claim (int_of_str : string -> option Z) (claims : dict)
    (name : string) (check : Z -> bool) : result unit :=
  match dict_get claims name with
  | None => Ok tt
  | Some v =>
      match py_int int_of_str v with
      | Ok n => if check n then Ok tt else Raise JWTError
      | Raise ValueError => Raise JWTError
      | Raise e => Raise e
      end
  end.

(** [_validate_sub], [_validate_jti]: a present claim must be a string. *)
Definition validate_str_claim (claims : dict) (name : string) : result unit :=
  match dict_get claims name with
  | None | Some (JStr _) => Ok tt
  | Some _ => Raise JWTError
  end.

(** [_validate_aud] with no expected audience and [_validate_at_hash] with no
    access token, as [jwt.decode] is called here: a present claim fails. *)
Definition validate_absent_claim (claims : dict) (name : string) : result unit :=
  match dict_get claims name with
  | None => Ok tt
  | Some _ => Raise JWTError
  end.

Definition then_ (r : result unit) (k : result unit) : result unit :=
  match r with
  | Ok _ => k
  | Raise e => Raise e
  end.

(** [_validate_claims] with the default options, leeway 0, and no audience,
    issuer, subject or access token: "iat", "nbf", "exp", "aud", "sub", "jti"
    and "at_hash" are checked in this order ("iss" is not, no issuer being
    expected); "nbf" must not be after [now] and "exp" not before it. *)
Definition validate_claims (int_of_str : string -> option Z) (claims : dict) (now : Z)
  : result unit :=
  then_ (validate_time_claim int_of_str claims "iat" (fun _ => true))
  (then_ (validate_time_claim int_of_str claims "nbf" (fun n => n <=? now))
  (then_ (validate_time_claim int_of_str claims "exp" (fun e => now <=? e))
  (then_ (validate_absent_claim claims "aud")
  (then_ (validate_str_claim claims "sub")
  (then_ (validate_str_claim claims "jti")
         (validate_absent_claim claims "at_hash")))))).

(** [jwt.decode(token, key, algorithms)] at time [now]: the claims when the
    signature verifies under [key] with an accepted algorithm and the
    registered claims pass [validate_claims]; [JWTError] otherwise, or the
    [TypeError] of a time claim that [int] does not take.  A claim under any
    other name is returned and not interpreted. *)
Definition jwt_decode (int_of_str : string -> option Z) (t : token) (key : string)
    (algorithms : list string) (now : Z) : result dict :=
  match t with
  | Malformed _ => Raise JWTError
  | Signed claims k alg =>
      if String.eqb k key && existsb (String.eqb alg) algorithms then
        match validate_claims int_of_str claims now with
        | Ok _ => Ok claims
        | Raise e => Raise e
        end
      else Raise JWTError
  end.

(** ** [app/jwt.py] *)

Record Token : Type := {
  access_token : token;
  token_type : string
}.

Module DataToken.
Record t : Type := { id : option string }.

(** [DataToken(id=v)]: the field is [Optional[str]].  The repository runs on
    pydantic 2 ([pydantic_settings], [model_dump]), whose validator takes a
    string or [None] for such a field and converts no number. *)
Definition init (v : json) : result t :=
  match v with
  | JStr s => Ok {| id := Some s |}
  | JNull => Ok {| id := None |}
  | _ => Raise ValidationError
  end.
End DataToken.

Definition ALGORITHM : string := "HS256".
Definition ACCESS_TOKEN_EXPIRE_MINUTES : Z := 30.

Section Handlers.

Variable ext : Externals.

(** *** Queries *)

(** A Python value bound to an INTEGER parameter; [DBAPIError] stands for
    whatever the driver raises when it refuses the value. *)
Definition bind_integer (v : json) : result Z :=
  match v with
  | JInt n => if integer_in_range ext n then Ok n else Raise DBAPIError
  | _ =>
      match coerce_integer ext v with
      | Some n => Ok n
      | None => Raise DBAPIError
      end
  end.

(** A Python value bound to a VARCHAR parameter. *)
Definition bind_text (v : json) : result string :=
  match v with
  | JStr s => Ok s
  | _ =>
      match coerce_text ext v with
      | Some s => Ok s
      | None => Raise DBAPIError
      end
  end.

(** [await session.get(Cause, key)] *)
Definition session_get_Cause (key : json) : M (option Cause.t) :=
  fun s =>
    match bind_integer key with
    | Ok n => (Ok (get_Cause (store s) n), s)
    | Raise e => (Raise e, s)
    end.

(** [(await session.exec(select(Cause).where(Cause.id == id))).first()].
    The driver refuses an [id] outside the range of the column type; a stored
    key is inside it, so the refusal can only meet an [id] that no row has. *)
Definition select_Cause_by_id (id : Z) : M (option Cause.t) :=
  fun s =>
    match get_Cause (store s) id with
    | Some row => (Ok (Some row), s)
    | None =>
        match bind_integer (JInt id) with
        | Ok _ => (Ok None, s)
        | Raise e => (Raise e, s)
        end
    end.

(** [(await session.execute(select(User).where(User.email == v))).first()];
    a comparison with [None] is rendered IS NULL and selects nothing, the
    column being NOT NULL. *)
Definition select_User_by_email (v : json) : M (option User.t) :=
  fun s =>
    match v with
    | JNull => (Ok None, s)
    | _ =>
        match bind_text v with
        | Ok e => (Ok (first_User_by_email (store s) e), s)
        | Raise e => (Raise e, s)
        end
    end.

(** [(await session.execute(select(User).where(User.username == name))).first()] *)
Definition select_User_by_username (name : string) : M (option User.t) :=
  fun s => (Ok (first_User_by_username (store s) name), s).

(** [(await db.execute(select(User).where(User.id == id))).first()] with the
    string (or [None]) a [DataToken] holds. *)
Definition select_User_by_id (id : option string) : M (option User.t) :=
  fun s =>
    match id with
    | None => (Ok None, s)
    | Some i =>
        match bind_integer (JStr i) with
        | Ok n => (Ok (first_User_by_id (store s) n), s)
        | Raise e => (Raise e, s)
        end
    end.

(** *** [app/jwt.py] *)

Definition create_access_token (data : dict) (now : Z) : token :=
  let to_encode := data in
  let expire := now + ACCESS_TOKEN_EXPIRE_MINUTES * 60 in
  let to_encode := dict_update to_encode "expire" (JStr (strftime expire)) in
  let encoded_jwt := jwt_encode to_encode (SECRET_KEY (settings ext)) ALGORITHM in
  encoded_jwt.

Definition verify_token_access (tok : token) (credentials_exception : exn) (now : Z)
  : result DataToken.t :=
  match
    match jwt_decode (int_of_str ext) tok (SECRET_KEY (settings ext)) [ALGORITHM] now with
    | Ok payload =>
        match dict_get payload "user_id" with
        | None | Some JNull => Raise credentials_exception
        | Some id => DataToken.init id
        end
    | Raise e => Raise e
    end
  with
  | Raise JWTError => Raise credentials_exception
  | r => r
  end.

(** The exception [get_current_user] builds (its [WWW-Authenticate] header is
    left out). *)
Definition credentials_exception : exn :=
  HTTPException 401 "Could not Validate Credentials".

Definition get_current_user (tok : token) (now : Z) : M User.t :=
  data <- lift (verify_token_access tok credentials_exception now) ;;
  existing_user <- select_User_by_id (DataToken.id data) ;;
  match existing_user with
  | Some row => ret row
  | None => raise TypeError
  end.

(** *** [app/main.py] *)

(** POST /login/ (the source names this handler [register] a second time). *)
Definition login (username password : string) (now : Z) : M Token :=
  existing_user <- select_User_by_username username ;;
  match existing_user with
  | None => raise (HTTPException 400 "Invalid credentials")
  | Some row =>
      if negb (verify_password ext password (User.password row)) then
        raise (HTTPException 401 "Invalid credentials")
      else
        let access_token := create_access_token [("user_id", JInt (User.id row))] now in
        ret {| access_token := access_token; token_type := "bearer" |}
  end.

(** POST /stripe/webhook.  [user.first()] is [None] when no row matches and
    [user[0]] then raises [TypeError]; once [user] is a row, [not user] is
    false, so the 404 is raised for a missing cause only. *)
Definition stripe_webhook (payload : list Byte.byte) (sig_header : option string)
    (now : Z) : M response :=
  let endpoint_secret := STRIPE_ENDPOINT_SECRET (settings ext) in
  event <- match construct_event ext payload sig_header endpoint_secret now with
           | Ok e => ret e
           | Raise ValueError => raise (HTTPException 400 "Invalid payload")
           | Raise SignatureVerificationError =>
               raise (HTTPException 400 "Invalid signature")
           | Raise e => raise e
           end ;;
  type <- lift (py_getitem event "type") ;;
  (if py_eq_str type "charge.succeeded" then
     data <- lift (py_path event ["data"; "object"; "metadata"]) ;;
     amount <- lift (py_path event ["data"; "object"; "amount"]) ;;
     key <- lift (py_getitem data "id") ;;
     cause <- session_get_Cause key ;;
     email <- lift (py_path event ["data"; "object"; "billing_details"; "email"]) ;;
     user <- select_User_by_email email ;;
     user <- match user with
             | Some row => ret row
             | None => raise TypeError
             end ;;
     match cause with
     | None => raise (HTTPException 404 "Cause or User not found")
     | Some cause =>
         units <- lift (py_truediv amount 100%positive) ;;
         let new_donation :=
           {| Donation.id := None;
              Donation.amount := units;
              Donation.created_at := now;
              Donation.donor_id := User.id user;
              Donation.cause_id := Cause.id cause |} in
         session_add new_donation ;;;
         session_commit
     end
   else ret tt) ;;;
  ret (Response 200).

(** The metadata [create_checkout_session] attaches to the hosted session. *)
Definition checkout_metadata (id : Z) : json :=
  JObj [("cause_id", JInt id)].

(** [stripe.checkout.Session.create(...)], recorded as sent. *)
Definition provider_create (request : checkout_request) : M (string + string) :=
  fun s =>
    (Ok (checkout_Session_create ext request),
     {| store := store s; pending := pending s; sent := sent s ++ [request] |}).

(** POST /causes/{id}/create-checkout-session *)
Definition create_checkout_session (id : Z) : M response :=
  cause <- select_Cause_by_id id ;;
  match cause with
  | None => raise (HTTPException 404 "Cause not found")
  | Some _ =>
      let domain_url := SERVER_URL (settings ext) in
      checkout_session <-
        provider_create
          {| payment_method_types := ["card"];
             mode := "payment";
             success_url := domain_url ++ "/donation/payment/success";
             cancel_url := domain_url ++ "/donation/payment/cancel";
             line_items := [("price_1QDNjALZvTUR5WIHOFYuOVUs", 1)];
             metadata := checkout_metadata id |} ;;
      match checkout_session with
      | inl url => ret (RedirectResponse url 303)
      | inr message => raise (HTTPException 400 message)
      end
  end.

End Handlers.

(** The database after one donation has been inserted and committed. *)
Definition with_donation (db : database) (d : Donation.t) : database :=
  {| users := users db;
     causes := causes db;
     donations := donations db ++ [d];
     donation_seq := donation_seq db + 1 |}.

(** The specification's idempotency property, as it states it: a second
    delivery of the same body, under the header the provider signed for it,
    leaves the donations as the first delivery left them. *)
Definition redelivery_is_idempotent (ext : Externals) (payload : list Byte.byte)
    (sig_header1 sig_header2 : option string) (now1 now2 : Z) (db : database) : Prop :=
  let db1 := snd (fst (run (stripe_webhook ext payload sig_header1 now1) db)) in
  let db2 := snd (fst (run (stripe_webhook ext payload sig_header2 now2) db1)) in
  donations db2 = donations db1.

(** The specification's settlement property, as it states it: the delivery
    is answered 200 and exactly one donation, of the resolved user to the
    resolved cause, is added. *)
Definition charge_is_recorded (ext : Externals) (payload : list Byte.byte)
    (sig_header : option string) (now : Z) (db : database)
    (user : User.t) (cause : Cause.t) : Prop :=
  exists d,
    run (stripe_webhook ext payload sig_header now) db
      = (Ok (Response 200), with_donation db d, [])
    /\ Donation.donor_id d = User.id user
    /\ Donation.cause_id d = Cause.id cause.

(** The specification's property of a checkout for an unknown cause, as it
    states it: 404, and nothing sent to the provider. *)
Definition unknown_cause_is_not_found (ext : Externals) (id : Z) (db : database) : Prop :=
  run (create_checkout_session ext id) db
    = (Raise (HTTPException 404 "Cause not found"), db, []).

(** The specification's no-leak property of a failed login, as it states it:
    with the same wrong password, a username that is stored and one that is
    not are answered alike. *)
Definition login_failure_hides_username (ext : Externals) (db : database)
    (stored unknown password : string) (now : Z) : Prop :=
  fst (fst (run (login ext stored password now) db))
  = fst (fst (run (login ext unknown password now) db)).

(** ** Registration, listing and the payment page ([app/main.py]) *)

Module UserCreate.
(** [UserCreate], that is [UserBase]: the body of POST /register/ once the
    framework has validated it. *)
Record t : Type := {
  username : string;
  email : string;
  password : string
}.
End UserCreate.

(** The paths the two payment pages are served under
    ([@app.get("/donation/payment/success")] and
    [@app.get("/donation/payment/cancelled")]). *)
Definition success_view_path : string := "/donation/payment/success".
Definition cancel_view_path : string := "/donation/payment/cancelled".

(** [templates.TemplateResponse(name, {"request": request, "cause": cause})] *)
Inductive page : Type :=
| TemplateResponse (name : string) (cause : Cause.t).

Section Registration.

Variable ext : Externals.

(** [app.utils.hash_pass(password)]; the module is not among the sources. *)
Variable hash_pass : string -> string.

(** [session.add(new_user); await session.commit(); await
    session.refresh(new_user)]: the commit flushes what is pending and inserts
    the row, and the refresh reads it back with [key], the primary key the
    database gave it. *)
Definition session_add_commit_refresh_User (username email password : string)
    (key : Z) : M User.t :=
  fun s =>
    let db := flush (pending s) (store s) in
    let row :=
      {| User.id := key;
         User.username := username;
         User.email := email;
         User.password := password |} in
    (Ok row,
     {| store :=
          {| users := users db ++ [row];
             causes := causes db;
             donations := donations db;
             donation_seq := donation_seq db |};
        pending := [];
        sent := sent s |}).

(** POST /register/ (the first handler the source names [register]); [key]
    is the primary key the database assigns to the new row. *)
Definition register (user : UserCreate.t) (key : Z) : M User.t :=
  existing_user <- select_User_by_email ext (JStr (UserCreate.email user)) ;;
  match existing_user with
  | Some _ => raise (HTTPException 400 "Email already registered")
  | None =>
      let hashed_pass := hash_pass (UserCreate.password user) in
      session_add_commit_refresh_User
        (UserCreate.username user) (UserCreate.email user) hashed_pass key
  end.

(** GET /donations/ *)
Definition list_donations : M (list Donation.t) :=
  fun s => (Ok (donations (store s)), s).

(** GET /causes/{id}/donate: the template and, of its context, the cause. *)
Definition render_payment_ui (id : Z) : M page :=
  cause <- select_Cause_by_id ext id ;;
  match cause with
  | None => raise (HTTPException 404 "Cause not found")
  | Some row => ret (TemplateResponse "donation_payment_ui.html" row)
  end.

End Registration.

(** The database after the same body has been delivered to the webhook once
    for each of [deliveries], in turn, each with its own header and at its
    own time. *)
Fixpoint deliver_each (ext : Externals) (payload : list Byte.byte)
    (deliveries : list (option string * Z)) (db : database) : database :=
  match deliveries with
  | [] => db
  | (sig_header, now) :: rest =>
      deliver_each ext payload rest
        (snd (fst (run (stripe_webhook ext payload sig_header now) db)))
  end.

(** Every donation names a stored user and a stored cause. *)
Definition donations_reference_stored (db : database) : Prop :=
  forall d, In d (donations db) ->
    (exists u, In u (users db) /\ User.id u = Donation.donor_id d)
    /\ (exists c, In c (causes db) /\ Cause.id c = Donation.cause_id d).

(** A time claim is absent, or [int] reads it as an integer that satisfies
    [P]. *)
Definition time_claim_accepted (int_of_str : string -> option Z) (claims : dict)
    (name : string) (P : Z -> Prop) : Prop :=
  match dict_get claims name with
  | None => True
  | Some v => exists n, py_int int_of_str v = Ok n /\ P n
  end.

(** A claim is absent or a string. *)
Definition str_claim_accepted (claims : dict) (name : string) : Prop :=
  dict_get claims name = None \/ exists s, dict_get claims name = Some (JStr s).

(** What [jwt.decode], as it is called here, requires of the registered
    claims at [now]. *)
Definition claims_accepted (int_of_str : string -> option Z) (claims : dict) (now : Z)
  : Prop :=
  time_claim_accepted int_of_str claims "iat" (fun _ => True)
  /\ time_claim_accepted int_of_str claims "nbf" (fun n => n <= now)
  /\ time_claim_accepted int_of_str claims "exp" (fun e => now <= e)
  /\ dict_get claims "aud" = None
  /\ str_claim_accepted claims "sub"
  /\ str_claim_accepted claims "jti"
  /\ dict_get claims "at_hash" = None.

(** None of the claims [jwt.decode] interprets. *)
Definition no_registered_claim (claims : dict) : Prop :=
  dict_get claims "iat" = None /\ dict_get claims "nbf" = None
  /\ dict_get claims "exp" = None /\ dict_get claims "aud" = None
  /\ dict_get claims "sub" = None /\ dict_get claims "jti" = None
  /\ dict_get claims "at_hash" = None.

(** ** A small deployment

    One user, one cause, a driver with 64-bit integers, and a provider stub
    whose signature header is "t=" and ten digits of timestamp followed by
    ",v1=" and the endpoint secret; the stub refuses a header more than 300 s
    old and reads the event off the first byte of the body. *)

Definition demo_settings : Settings :=
  {| STRIPE_PUBLISHABLE_KEY := "pk_test";
     STRIPE_SECRET_KEY := "sk_test";
     STRIPE_ENDPOINT_SECRET := "whsec_test";
     DATABASE_URL := "sqlite+aiosqlite:///demo.db";
     SERVER_URL := "https://donate.example";
     SECRET_KEY := "signing-secret" |}.

Definition demo_event (type : string) (metadata : json) (email : string) : json :=
  JObj [("id", JStr "evt_1");
        ("type", JStr type);
        ("data", JObj [("object",
           JObj [("amount", JInt 2500);
                 ("billing_details", JObj [("email", JStr email)]);
                 ("metadata", metadata)])])].

(** A charge of 10^400 minor units. *)
Definition demo_huge_charge : json :=
  JObj [("id", JStr "evt_3");
        ("type", JStr "charge.succeeded");
        ("data", JObj [("object",
           JObj [("amount", JInt (10 ^ 400));
                 ("billing_details", JObj [("email", JStr "donor@example.org")]);
                 ("metadata", JObj [("id", JInt 7)])])])].

(** The number a text of decimal digits spells. *)
Fixpoint decimal_value (s : string) (acc : Z) : option Z :=
  match s with
  | EmptyString => Some acc
  | String ch rest =>
      let n := Z.of_nat (nat_of_ascii ch) in
      if (48 <=? n) && (n <=? 57) then decimal_value rest (10 * acc + (n - 48))
      else None
  end.

Definition demo_int_of_str (s : string) : option Z :=
  match s with
  | EmptyString => None
  | _ => decimal_value s 0
  end.

Definition demo_header (t : Z) (secret : string) : string :=
  "t=" ++ zfill 10 t ++ ",v1=" ++ secret.

Definition demo_header_timestamp (h secret : string) : option Z :=
  if String.eqb (substring 0 2 h) "t="
     && String.eqb (substring 12 (String.length h - 12) h) (",v1=" ++ secret)
  then decimal_value (substring 2 10 h) 0
  else None.

Definition demo_construct_event (payload : list Byte.byte) (sig_header : option string)
    (secret : string) (now : Z) : result json :=
  match sig_header with
  | Some h =>
      match demo_header_timestamp h secret with
      | Some t =>
          if now - t <=? 300 then
            match payload with
            | Byte.x00 :: _ =>
                Ok (demo_event "charge.succeeded" (JObj [("id", JInt 7)])
                      "donor@example.org")
            | Byte.x01 :: _ =>
                Ok (demo_event "charge.failed" (JObj [("id", JInt 7)])
                      "donor@example.org")
            | Byte.x02 :: _ =>
                Ok (demo_event "charge.succeeded" (JObj [("cause_id", JInt 7)])
                      "donor@example.org")
            | Byte.x03 :: _ =>
                Ok (demo_event "charge.succeeded" (JObj [("id", JInt 7)])
                      "nobody@example.org")
            | Byte.x04 :: _ => Ok demo_huge_charge
            | _ => Raise ValueError
            end
          else Raise SignatureVerificationError
      | None => Raise SignatureVerificationError
      end
  | None => Raise SignatureVerificationError
  end.

(** The header the provider signs at time [t], and the one it signed at 0. *)
Definition demo_sig_at (t : Z) : option string := Some (demo_header t "whsec_test").

Definition demo_sig : option string := demo_sig_at 0.

Definition demo_charge : json :=
  demo_event "charge.succeeded" (JObj [("id", JInt 7)]) "donor@example.org".

Definition demo_integer_in_range (n : Z) : bool :=
  (- 2 ^ 63 <=? n) && (n <? 2 ^ 63).

Definition demo_ext : Externals :=
  {| settings := demo_settings;
     construct_event := demo_construct_event;
     checkout_Session_create := fun _ => inl "https://checkout.example/cs_test_1";
     verify_password := fun plain hashed => String.eqb ("hash:" ++ plain) hashed;
     integer_in_range := demo_integer_in_range;
     coerce_integer := fun _ => None;
     coerce_text := fun _ => None;
     int_of_str := demo_int_of_str |}.

Definition demo_hash_pass (plain : string) : string := "hash:" ++ plain.

Definition demo_user : User.t :=
  {| User.id := 1;
     User.username := "alice";
     User.email := "donor@example.org";
     User.password := "hash:wonderland" |}.

Definition demo_cause : Cause.t :=
  {| Cause.id := 7;
     Cause.name := "Wells";
     Cause.tagline := "Clean water";
     Cause.description := "Ten wells";
     Cause.end_date := 1767225600;
     Cause.banner_image := None;
     Cause.cover_image := None |}.

Definition demo_db : database :=
  {| users := [demo_user];
     causes := [demo_cause];
     donations := [];
     donation_seq := 1 |}.

(** A driver that reads a text of decimal digits bound to an INTEGER
    parameter as the number it spells, as SQLite's column affinity does, and
    refuses any other value. *)
Definition demo_coerce_integer (v : json) : option Z :=
  match v with
  | JStr s => demo_int_of_str s
  | _ => None
  end.

Definition demo_lenient_ext : Externals :=
  {| settings := demo_settings;
     construct_event := demo_construct_event;
     checkout_Session_create := fun _ => inr "No such price";
     verify_password := fun plain hashed => String.eqb ("hash:" ++ plain) hashed;
     integer_in_range := demo_integer_in_range;
     coerce_integer := demo_coerce_integer;
     coerce_text := fun _ => None;
     int_of_str := demo_int_of_str |}.

(** A charge paid without a billing e-mail. *)
Definition demo_anonymous_charge : json :=
  JObj [("id", JStr "evt_2");
        ("type", JStr "charge.succeeded");
        ("data", JObj [("object",
           JObj [("amount", JInt 2500);
                 ("billing_details", JObj [("email", JNull)]);
                 ("metadata", JObj [("id", JInt 7)])])])].

Definition demo_anonymous_ext : Externals :=
  {| settings := demo_settings;
     construct_event := fun _ _ _ _ => Ok demo_anonymous_charge;
     checkout_Session_create := fun _ => inl "https://checkout.example/cs_test_1";
     verify_password := fun plain hashed => String.eqb ("hash:" ++ plain) hashed;
     integer_in_range := demo_integer_in_range;
     coerce_integer := fun _ => None;
     coerce_text := fun _ => None;
     int_of_str := demo_int_of_str |}.

(** A provider SDK that fails outside its two documented exceptions. *)
Definition demo_broken_sdk_ext : Externals :=
  {| settings := demo_settings;
     construct_event := fun payload _ _ _ =>
       match payload with
       | [] => Raise ValueError
       | _ => Raise TypeError
       end;
     checkout_Session_create := fun _ => inl "https://checkout.example/cs_test_1";
     verify_password := fun plain hashed => String.eqb ("hash:" ++ plain) hashed;
     integer_in_range := demo_integer_in_range;
     coerce_integer := fun _ => None;
     coerce_text := fun _ => None;
     int_of_str := demo_int_of_str |}.

(** 25.0: 25 * 2^48 * 2^-48. *)
Definition demo_donation : Donation.t :=
  {| Donation.id := Some 1;
     Donation.amount := S754_finite false 7036874417766400 (-48);
     Donation.created_at := 10;
     Donation.donor_id := 1;
     Donation.cause_id := 7 |}.

Definition demo_newcomer : UserCreate.t :=
  {| UserCreate.username := "bob";
     UserCreate.email := "bob@example.org";
     UserCreate.password := "builder" |}.

(** Somebody else who wants to be "alice". *)
Definition demo_namesake : UserCreate.t :=
  {| UserCreate.username := "alice";
     UserCreate.email := "alice2@example.org";
     UserCreate.password := "looking-glass" |}.

(** * Properties *)

Section Properties.

Variable ext : Externals.

#[local] Abbreviation endpoint_secret := (STRIPE_ENDPOINT_SECRET (settings ext)).

(** ** Subscripting *)



Lemma find_none_iff {A : Type} (p : A -> bool) (l : list A) :
  find p l = None <-> (forall x, In x l -> p x = false).
Proof.
  split.
  - apply find_none.
  - induction l as [|a l IH]; cbn; intros H; [reflexivity|].
    rewrite (H a (or_introl eq_refl)). apply IH. intros x Hx. apply H. now right.
Qed.

(** ** The webhook, step by step *)

Ltac step_handler :=
  unfold run, stripe_webhook, create_checkout_session, login, get_current_user,
    bind, lift, ret, raise, session_get_Cause, select_Cause_by_id,
    select_User_by_email, select_User_by_username, select_User_by_id,
    session_add, session_commit, provider_create;
  cbn [store pending sent fst snd].

(** C8.  A delivery whose signature the provider's SDK rejects is answered
    400 "Invalid signature", whatever its body, and the stored database is the
    one the request found; nothing is sent to the provider either. *)
Theorem webhook_invalid_signature_rejected
    (payload : list Byte.byte) (sig_header : option string) (now : Z) (db : database) :
  construct_event ext payload sig_header endpoint_secret now
    = Raise SignatureVerificationError ->
  run (stripe_webhook ext payload sig_header now) db
    = (Raise (HTTPException 400 "Invalid signature"), db, [])
  /\ http_status (fst (fst (run (stripe_webhook ext payload sig_header now) db))) = 400.
Proof.
  intros Hsig. step_handler. rewrite Hsig. cbn. split; reflexivity.
Qed.

(** C9.  A verified event whose type is not "charge.succeeded" is answered 200
    and the stored database, donations included, is unchanged. *)
Theorem webhook_other_event_acknowledged
    (payload : list Byte.byte) (sig_header : option string) (now : Z) (db : database)
    (event type : json) :
  construct_event ext payload sig_header endpoint_secret now = Ok event ->
  py_getitem event "type" = Ok type ->
  py_eq_str type "charge.succeeded" = false ->
  run (stripe_webhook ext payload sig_header now) db = (Ok (Response 200), db, [])
  /\ http_status (fst (fst (run (stripe_webhook ext payload sig_header now) db))) = 200.
Proof.
  intros Hev Hty Hne. step_handler. rewrite Hev. cbn. rewrite Hty. cbn.
  rewrite Hne. cbn. split; reflexivity.
Qed.

(** C10, as the handler has it.  A checkout request for an id that no
    stored cause has fails, sends no request to the payment provider and
    leaves the stored database unchanged.  The failure is 404 "Cause not
    found" when the driver takes the id as an INTEGER parameter; when the id
    is outside the driver's range the query itself fails and the request ends
    in the driver's error, a 500. *)
Theorem checkout_unknown_cause_not_found (id : Z) (db : database) :
  (forall c, In c (causes db) -> Cause.id c <> id) ->
  exists e,
    run (create_checkout_session ext id) db = (Raise e, db, [])
    /\ (integer_in_range ext id = true ->
        e = HTTPException 404 "Cause not found" /\ error_status e = 404)
    /\ (integer_in_range ext id = false ->
        e = DBAPIError /\ error_status e = 500).
Proof.
  intros Hnone.
  assert (Hfind : get_Cause db id = None).
  { apply find_none_iff. intros c Hc. apply Z.eqb_neq. now apply Hnone. }
  step_handler. rewrite Hfind. unfold bind_integer.
  destruct (integer_in_range ext id); cbn; eexists;
    (split; [reflexivity|]); split; intros H; try discriminate H;
    split; reflexivity.
Qed.

(** C1, as the handler has it.  A verified "charge.succeeded" event whose
    metadata ["id"] the database resolves to a stored cause, whose billing
    e-mail is that of a stored user and whose amount is the integer [a] is
    settled by the division [a / 100].  When the quotient fits a float, the
    delivery is answered 200 and the stored database is the former one with
    exactly one donation appended: its amount is that float, the double
    nearest to the quotient, its donor the resolved user, its cause the
    resolved cause; users and causes are untouched.  When the quotient is too
    large for a float, the division raises [OverflowError], the delivery ends
    in a 500 and nothing is stored. *)
Theorem webhook_charge_succeeded_records_donation
    (payload : list Byte.byte) (sig_header : option string) (now : Z) (db : database)
    (event data key : json) (a n : Z) (e : string) (cause : Cause.t) (user : User.t) :
  construct_event ext payload sig_header endpoint_secret now = Ok event ->
  py_getitem event "type" = Ok (JStr "charge.succeeded") ->
  py_path event ["data"; "object"; "metadata"] = Ok data ->
  py_path event ["data"; "object"; "amount"] = Ok (JInt a) ->
  py_getitem data "id" = Ok key ->
  bind_integer ext key = Ok n ->
  get_Cause db n = Some cause ->
  py_path event ["data"; "object"; "billing_details"; "email"] = Ok (JStr e) ->
  first_User_by_email db e = Some user ->
  ((forall s, int_truediv a 100 <> S754_infinity s) ->
   run (stripe_webhook ext payload sig_header now) db
     = (Ok (Response 200),
        with_donation db
          {| Donation.id := Some (donation_seq db);
             Donation.amount := int_truediv a 100;
             Donation.created_at := now;
             Donation.donor_id := User.id user;
             Donation.cause_id := Cause.id cause |},
        []))
  /\ ((exists s, int_truediv a 100 = S754_infinity s) ->
      run (stripe_webhook ext payload sig_header now) db
        = (Raise OverflowError, db, [])
      /\ error_status OverflowError = 500).
Proof.
  intros Hev Hty Hdata Hamount Hkey Hn Hcause Hemail Huser.
  assert (Hrun :
    run (stripe_webhook ext payload sig_header now) db
    = match py_truediv (JInt a) 100 with
      | Ok units =>
          (Ok (Response 200),
           with_donation db
             {| Donation.id := Some (donation_seq db);
                Donation.amount := units;
                Donation.created_at := now;
                Donation.donor_id := User.id user;
                Donation.cause_id := Cause.id cause |},
           [])
      | Raise exc => (Raise exc, db, [])
      end).
  { step_handler. rewrite Hev. cbn - [py_path py_truediv]. rewrite Hty.
    cbn - [py_path py_truediv]. rewrite Hdata, Hamount. cbn - [py_path py_truediv].
    rewrite Hkey, Hn. cbn - [py_path py_truediv]. rewrite Hemail.
    cbn - [py_path py_truediv]. rewrite Hcause, Huser. cbn - [py_path py_truediv].
    destruct (py_truediv (JInt a) 100); reflexivity. }
  rewrite Hrun. unfold py_truediv. split.
  - intros Hfinite. destruct (int_truediv a 100) as [| s | |]; try reflexivity.
    now elim (Hfinite s).
  - intros [s ->]. split; reflexivity.
Qed.

(** The sibling case of C5 that the handler does answer 404: the cause is
    missing and the user is found. *)
Lemma webhook_missing_cause_not_found
    (payload : list Byte.byte) (sig_header : option string) (now : Z) (db : database)
    (event data amount key : json) (n : Z) (e : string) (user : User.t) :
  construct_event ext payload sig_header endpoint_secret now = Ok event ->
  py_getitem event "type" = Ok (JStr "charge.succeeded") ->
  py_path event ["data"; "object"; "metadata"] = Ok data ->
  py_path event ["data"; "object"; "amount"] = Ok amount ->
  py_getitem data "id" = Ok key ->
  bind_integer ext key = Ok n ->
  get_Cause db n = None ->
  py_path event ["data"; "object"; "billing_details"; "email"] = Ok (JStr e) ->
  first_User_by_email db e = Some user ->
  run (stripe_webhook ext payload sig_header now) db
    = (Raise (HTTPException 404 "Cause or User not found"), db, []).
Proof.
  intros Hev Hty Hdata Hamount Hkey Hn Hcause Hemail Huser.
  step_handler. rewrite Hev. cbn - [py_path]. rewrite Hty. cbn - [py_path].
  rewrite Hdata, Hamount. cbn - [py_path]. rewrite Hkey, Hn. cbn - [py_path].
  rewrite Hemail. cbn - [py_path]. rewrite Hcause, Huser. reflexivity.
Qed.

(** C5.  What the handler does when no stored user has the billing e-mail of a
    verified "charge.succeeded" event: [user.first()] is [None], [user[0]]
    raises [TypeError] before the existence check is reached, and the request
    ends in a 500, not in the 404 the check was written to give.  No donation
    is created.  This holds whether or not the cause exists. *)
Theorem webhook_unknown_user_raises_TypeError
    (payload : list Byte.byte) (sig_header : option string) (now : Z) (db : database)
    (event data amount key : json) (n : Z) (e : string) :
  construct_event ext payload sig_header endpoint_secret now = Ok event ->
  py_getitem event "type" = Ok (JStr "charge.succeeded") ->
  py_path event ["data"; "object"; "metadata"] = Ok data ->
  py_path event ["data"; "object"; "amount"] = Ok amount ->
  py_getitem data "id" = Ok key ->
  bind_integer ext key = Ok n ->
  py_path event ["data"; "object"; "billing_details"; "email"] = Ok (JStr e) ->
  first_User_by_email db e = None ->
  run (stripe_webhook ext payload sig_header now) db = (Raise TypeError, db, [])
  /\ http_status (fst (fst (run (stripe_webhook ext payload sig_header now) db))) = 500.
Proof.
  intros Hev Hty Hdata Hamount Hkey Hn Hemail Huser.
  step_handler. rewrite Hev. cbn - [py_path]. rewrite Hty. cbn - [py_path].
  rewrite Hdata, Hamount. cbn - [py_path]. rewrite Hkey, Hn. cbn - [py_path].
  rewrite Hemail. cbn - [py_path]. rewrite Huser. cbn. split; reflexivity.
Qed.



(** The other failure of [construct_event]: a body it cannot decode. *)
Lemma webhook_invalid_payload_rejected
    (payload : list Byte.byte) (sig_header : option string) (now : Z) (db : database) :
  construct_event ext payload sig_header endpoint_secret now = Raise ValueError ->
  run (stripe_webhook ext payload sig_header now) db
    = (Raise (HTTPException 400 "Invalid payload"), db, []).
Proof.
  intros Hbad. step_handler. now rewrite Hbad.
Qed.

(** ** Redelivery *)

Lemma get_Cause_same_causes (db db' : database) (n : Z) :
  causes db' = causes db -> get_Cause db' n = get_Cause db n.
Proof. unfold get_Cause. now intros ->. Qed.

Lemma first_User_by_email_same_users (db db' : database) (e : string) :
  users db' = users db -> first_User_by_email db' e = first_User_by_email db e.
Proof. unfold first_User_by_email. now intros ->. Qed.

(** What a delivery does is decided by what [construct_event] makes of it
    and by the users and causes it finds, never by the donations already
    stored: either it leaves the database alone and ends in a fixed result,
    or it answers 200 and appends a donation with a fixed amount, donor and
    cause.  The same holds of any delivery that [construct_event] treats
    alike. *)
Lemma webhook_outcome_determined
    (payload : list Byte.byte) (sig_header : option string) (now : Z) (db : database) :
  (exists r, forall sig_header' now' db',
      construct_event ext payload sig_header' endpoint_secret now'
        = construct_event ext payload sig_header endpoint_secret now ->
      users db' = users db -> causes db' = causes db ->
      run (stripe_webhook ext payload sig_header' now') db' = (r, db', []))
  \/
  (exists q u c, forall sig_header' now' db',
      construct_event ext payload sig_header' endpoint_secret now'
        = construct_event ext payload sig_header endpoint_secret now ->
      users db' = users db -> causes db' = causes db ->
      run (stripe_webhook ext payload sig_header' now') db'
        = (Ok (Response 200),
           with_donation db'
             {| Donation.id := Some (donation_seq db');
                Donation.amount := q;
                Donation.created_at := now';
                Donation.donor_id := u;
                Donation.cause_id := c |},
           [])).
Proof.
  pose proof (get_Cause_same_causes db) as HC.
  pose proof (first_User_by_email_same_users db) as HU.
  destruct (construct_event ext payload sig_header endpoint_secret now)
    as [event|e0] eqn:Hev0.
  2:{ left. destruct e0; eexists; intros sig' now' db' Hev Hu Hc; step_handler;
      rewrite Hev; reflexivity. }
  destruct (py_getitem event "type") as [type|e1] eqn:Hty.
  2:{ left. eexists; intros sig' now' db' Hev Hu Hc; step_handler; rewrite Hev; cbn;
      rewrite Hty; reflexivity. }
  destruct (py_eq_str type "charge.succeeded") eqn:Hcs.
  2:{ left. eexists; intros sig' now' db' Hev Hu Hc; step_handler; rewrite Hev; cbn;
      rewrite Hty; cbn; rewrite Hcs; reflexivity. }
  destruct (py_path event ["data"; "object"; "metadata"]) as [data|e2] eqn:Hdata.
  2:{ left. eexists; intros sig' now' db' Hev Hu Hc; step_handler; rewrite Hev;
      cbn - [py_path]; rewrite Hty; cbn - [py_path]; rewrite Hcs, Hdata; reflexivity. }
  destruct (py_path event ["data"; "object"; "amount"]) as [amount|e3] eqn:Hamount.
  2:{ left. eexists; intros sig' now' db' Hev Hu Hc; step_handler; rewrite Hev;
      cbn - [py_path]; rewrite Hty; cbn - [py_path]; rewrite Hcs, Hdata, Hamount;
      reflexivity. }
  destruct (py_getitem data "id") as [key|e4] eqn:Hkey.
  2:{ left. eexists; intros sig' now' db' Hev Hu Hc; step_handler; rewrite Hev;
      cbn - [py_path]; rewrite Hty; cbn - [py_path]; rewrite Hcs, Hdata, Hamount;
      cbn - [py_path]; rewrite Hkey; reflexivity. }
  destruct (bind_integer ext key) as [n|e5] eqn:Hn.
  2:{ left. eexists; intros sig' now' db' Hev Hu Hc; step_handler; rewrite Hev;
      cbn - [py_path bind_integer]; rewrite Hty; cbn - [py_path bind_integer];
      rewrite Hcs, Hdata, Hamount; cbn - [py_path bind_integer];
      rewrite Hkey, Hn; reflexivity. }
  destruct (py_path event ["data"; "object"; "billing_details"; "email"])
    as [email|e6] eqn:Hemail.
  2:{ left. eexists; intros sig' now' db' Hev Hu Hc; step_handler; rewrite Hev;
      cbn - [py_path bind_integer]; rewrite Hty; cbn - [py_path bind_integer];
      rewrite Hcs, Hdata, Hamount; cbn - [py_path bind_integer];
      rewrite Hkey, Hn; cbn - [py_path bind_integer]; rewrite Hemail; reflexivity. }
  assert (Hrow : exists row : result (option User.t), forall w : session,
            users (store w) = users db ->
            select_User_by_email ext email w = (row, w)).
  { unfold select_User_by_email.
    destruct email; try (destruct (bind_text ext _) as [t|e7] eqn:Ht);
      try (eexists; intros w Hu; rewrite (HU _ _ Hu); reflexivity);
      eexists; intros w Hu; reflexivity. }
  destruct Hrow as [row Hrow].
  assert (Hprefix : forall sig' now' db',
      construct_event ext payload sig' endpoint_secret now' = Ok event ->
      users db' = users db -> causes db' = causes db ->
      run (stripe_webhook ext payload sig' now') db' =
      match row with
      | Ok (Some user) =>
          match get_Cause db n with
          | None => (Raise (HTTPException 404 "Cause or User not found"), db', [])
          | Some cause =>
              match py_truediv amount 100 with
              | Ok units =>
                  (Ok (Response 200),
                   with_donation db'
                     {| Donation.id := Some (donation_seq db');
                        Donation.amount := units;
                        Donation.created_at := now';
                        Donation.donor_id := User.id user;
                        Donation.cause_id := Cause.id cause |},
                   [])
              | Raise e => (Raise e, db', [])
              end
          end
      | Ok None => (Raise TypeError, db', [])
      | Raise e => (Raise e, db', [])
      end).
  { intros sig' now' db' Hev Hu Hc.
    unfold run, stripe_webhook, bind, lift, ret, raise, session_get_Cause,
      session_add, session_commit.
    rewrite Hev. cbn - [py_path select_User_by_email py_truediv bind_integer]. rewrite Hty.
    cbn - [py_path select_User_by_email py_truediv bind_integer].
    rewrite Hcs, Hdata, Hamount.
    cbn - [py_path select_User_by_email py_truediv bind_integer]. rewrite Hkey, Hn.
    cbn - [py_path select_User_by_email py_truediv bind_integer]. rewrite Hemail.
    cbn - [py_path select_User_by_email py_truediv bind_integer].
    rewrite Hrow by exact Hu. rewrite (HC _ _ Hc).
    destruct row as [[user|]|e8]; try reflexivity.
    destruct (get_Cause db n); [|reflexivity].
    cbn - [py_truediv].
    destruct (py_truediv amount 100); reflexivity. }
  destruct row as [[user|]|e8].
  - destruct (get_Cause db n) as [cause|].
    + destruct (py_truediv amount 100) as [units|e9].
      * right. exists units, (User.id user), (Cause.id cause).
        intros sig' now' db' Hev Hu Hc. now apply Hprefix.
      * left. eexists. intros sig' now' db' Hev Hu Hc. now apply Hprefix.
    + left. eexists. intros sig' now' db' Hev Hu Hc. now apply Hprefix.
  - left. eexists. intros sig' now' db' Hev Hu Hc. now apply Hprefix.
  - left. eexists. intros sig' now' db' Hev Hu Hc. now apply Hprefix.
Qed.

(** C2, as the handler has it.  A second delivery of the same body that the
    provider's SDK verifies as it did the first (a redelivery comes with a
    freshly signed header) is answered as the first was and leaves users and
    causes alone.  When the first delivery stored nothing, the second stores
    nothing.  When the first delivery stored a donation, the second stores a
    further one, with the same amount, donor and cause and the next id:
    nothing in the handler reads the provider's event id or remembers a
    delivery. *)
Theorem webhook_redelivery_repeats_first_delivery
    (payload : list Byte.byte) (sig_header1 sig_header2 : option string)
    (now1 now2 : Z) (db : database) :
  construct_event ext payload sig_header2 endpoint_secret now2
    = construct_event ext payload sig_header1 endpoint_secret now1 ->
  exists r db1 db2,
    run (stripe_webhook ext payload sig_header1 now1) db = (r, db1, [])
    /\ run (stripe_webhook ext payload sig_header2 now2) db1 = (r, db2, [])
    /\ users db2 = users db /\ causes db2 = causes db
    /\ ((db1 = db /\ db2 = db)
        \/ (r = Ok (Response 200) /\
            exists d1 d2,
              db1 = with_donation db d1 /\ db2 = with_donation db1 d2
              /\ Donation.amount d2 = Donation.amount d1
              /\ Donation.donor_id d2 = Donation.donor_id d1
              /\ Donation.cause_id d2 = Donation.cause_id d1
              /\ Donation.id d1 = Some (donation_seq db)
              /\ Donation.id d2 = Some (donation_seq db + 1))).
Proof.
  intros Hsame.
  destruct (webhook_outcome_determined payload sig_header1 now1 db)
    as [[r H]|[q [u [c H]]]].
  - exists r, db, db. repeat split; try (apply H; auto); try reflexivity. now left.
  - pose proof (H sig_header1 now1 db eq_refl eq_refl eq_refl) as H1.
    set (d1 := {| Donation.id := Some (donation_seq db);
                  Donation.amount := q;
                  Donation.created_at := now1;
                  Donation.donor_id := u;
                  Donation.cause_id := c |}) in H1.
    pose proof (H sig_header2 now2 (with_donation db d1) Hsame eq_refl eq_refl) as H2.
    exists (Ok (Response 200)), (with_donation db d1).
    eexists. split; [exact H1|]. split; [exact H2|].
    split; [reflexivity|]. split; [reflexivity|].
    right. split; [reflexivity|]. exists d1. eexists.
    repeat split; reflexivity.
Qed.

(** ** Tokens *)

Lemma dict_get_update_other (d : dict) (k k' : string) (v : json) :
  String.eqb k k' = false ->
  dict_get (dict_update d k v) k' = dict_get d k'.
Proof.
  intros Hk. induction d as [|[k0 v0] d IH]; cbn.
  - now rewrite Hk.
  - destruct (String.eqb k0 k) eqn:E0; cbn.
    + apply String.eqb_eq in E0. subst k0. now rewrite Hk.
    + destruct (String.eqb k0 k'); [reflexivity | exact IH].
Qed.

(** Claims that hold none of the registered names pass validation at any
    time. *)
Lemma validate_unregistered (claims : dict) (now : Z) :
  no_registered_claim claims ->
  validate_claims (int_of_str ext) claims now = Ok tt.
Proof.
  intros [Hiat [Hnbf [Hexp [Haud [Hsub [Hjti Hat]]]]]].
  unfold validate_claims, validate_time_claim, validate_str_claim,
    validate_absent_claim.
  now rewrite Hiat, Hnbf, Hexp, Haud, Hsub, Hjti, Hat.
Qed.

(** Issuing never writes a registered claim: the deadline goes under
    "expire", which decoding does not interpret. *)
Lemma decode_of_issued (data : dict) (now later : Z) :
  no_registered_claim data ->
  jwt_decode (int_of_str ext) (create_access_token ext data now)
    (SECRET_KEY (settings ext)) [ALGORITHM] later
  = Ok (dict_update data "expire"
          (JStr (strftime (now + ACCESS_TOKEN_EXPIRE_MINUTES * 60)))).
Proof.
  intros Hnone. unfold create_access_token, jwt_encode, jwt_decode.
  rewrite String.eqb_refl. cbn [existsb ALGORITHM andb orb].
  rewrite String.eqb_refl. cbn [andb orb].
  rewrite validate_unregistered; [reflexivity|].
  unfold no_registered_claim in *.
  rewrite !dict_get_update_other by reflexivity. exact Hnone.
Qed.

Ltac no_registered := unfold no_registered_claim; cbn; repeat split; reflexivity.

(** The token that [login] issues carries the id as an [int], which
    [DataToken] refuses: verifying it ends in a [ValidationError] that
    [except JWTError] does not catch. *)
Lemma verify_of_integer_identity (n : Z) (exc : exn) (now later : Z) :
  verify_token_access ext (create_access_token ext [("user_id", JInt n)] now) exc later
  = Raise ValidationError.
Proof.
  unfold verify_token_access. rewrite decode_of_issued by no_registered. reflexivity.
Qed.

(** C3.  What verification does with a token once its 30 minutes are over:
    it returns the identity, as it does before.  The deadline is written under
    the claim "expire", which decoding does not read, so the result of
    verifying an issued token is the same at every time [later], in particular
    after [now + 30 * 60]. *)
Theorem verify_accepts_issued_token_at_any_time (id : string) (exc : exn) (now later : Z) :
  verify_token_access ext (create_access_token ext [("user_id", JStr id)] now) exc later
  = Ok {| DataToken.id := Some id |}.
Proof.
  unfold verify_token_access. rewrite decode_of_issued by no_registered. reflexivity.
Qed.

(** C6.  What the guard does with a token that verifies and names no stored
    user: the query has no first row (or the driver refuses the string bound
    to the integer key), [existing_user[0]] raises, and the request ends in a
    500; a token that does not verify ends in the 401 of
    [credentials_exception].  The two are told apart. *)
Theorem guard_unknown_user_is_not_unauthorized
    (tok : token) (now : Z) (db : database) (data : DataToken.t) :
  verify_token_access ext tok credentials_exception now = Ok data ->
  (forall i n, DataToken.id data = Some i -> bind_integer ext (JStr i) = Ok n ->
               first_User_by_id db n = None) ->
  exists e,
    run (get_current_user ext tok now) db = (Raise e, db, [])
    /\ (e = TypeError \/ e = DBAPIError)
    /\ error_status e = 500
    /\ error_status credentials_exception = 401.
Proof.
  intros Hverify Hnone. step_handler. rewrite Hverify. cbn - [bind_integer].
  destruct (DataToken.id data) as [i|] eqn:Hid.
  - destruct (bind_integer ext (JStr i)) as [n|e] eqn:Hn.
    + rewrite (Hnone i n eq_refl Hn). exists TypeError. auto.
    + unfold bind_integer in Hn.
      destruct (coerce_integer ext (JStr i)); [discriminate|].
      injection Hn as <-. exists DBAPIError. auto.
  - exists TypeError. auto.
Qed.

(** C7, as the handler has it.  A login that fails raises "Invalid
    credentials" with status 400 when no stored user has the username and
    with status 401 when one has and the password does not verify.  A login
    that succeeds returns a bearer token that decodes, under the signing
    secret and at any time, to claims whose "user_id" is the stored id. *)
Theorem login_outcomes (username password : string) (now : Z) (db : database) :
  (first_User_by_username db username = None ->
   run (login ext username password now) db
     = (Raise (HTTPException 400 "Invalid credentials"), db, []))
  /\ (forall row,
        first_User_by_username db username = Some row ->
        verify_password ext password (User.password row) = false ->
        run (login ext username password now) db
          = (Raise (HTTPException 401 "Invalid credentials"), db, []))
  /\ (forall row,
        first_User_by_username db username = Some row ->
        verify_password ext password (User.password row) = true ->
        exists tok,
          run (login ext username password now) db
            = (Ok {| access_token := tok; token_type := "bearer" |}, db, [])
          /\ forall later, exists payload,
               jwt_decode (int_of_str ext) tok (SECRET_KEY (settings ext)) [ALGORITHM]
                 later = Ok payload
               /\ dict_get payload "user_id" = Some (JInt (User.id row))).
Proof.
  repeat split.
  - intros Hnone. step_handler. now rewrite Hnone.
  - intros row Hrow Hpw. step_handler. now rewrite Hrow, Hpw.
  - intros row Hrow Hpw. eexists. split.
    + step_handler. rewrite Hrow, Hpw. reflexivity.
    + intros later. eexists. split.
      * apply decode_of_issued. no_registered.
      * reflexivity.
Qed.

End Properties.

(** * The properties on the small deployment *)

(** The specification's example: 2500 minor units, cause 7, a stored user's
    e-mail; one donation of 25.0 for cause 7 and user 1.  And a charge of
    10^400 minor units, which no float holds. *)
Lemma webhook_charge_succeeded_records_donation_witness :
  run (stripe_webhook demo_ext [Byte.x00] demo_sig 10) demo_db
    = (Ok (Response 200),
       with_donation demo_db
         {| Donation.id := Some 1;
            Donation.amount := int_truediv 2500 100;
            Donation.created_at := 10;
            Donation.donor_id := 1;
            Donation.cause_id := 7 |},
       [])
  /\ int_truediv 2500 100 = S754_finite false 7036874417766400 (-48)
  /\ match float_value (int_truediv 2500 100) with
     | Some q => (q == 25)%Q
     | None => False
     end
  /\ run (stripe_webhook demo_ext [Byte.x04] demo_sig 10) demo_db
     = (Raise OverflowError, demo_db, []).
Proof.
  split; [|split; [|split]].
  - apply (proj1 (webhook_charge_succeeded_records_donation demo_ext [Byte.x00] demo_sig
                    10 demo_db demo_charge (JObj [("id", JInt 7)]) (JInt 7) 2500 7
                    "donor@example.org" demo_cause demo_user
                    eq_refl eq_refl eq_refl eq_refl eq_refl eq_refl eq_refl eq_refl
                    eq_refl)).
    intros s. vm_compute. discriminate.
  - vm_compute. reflexivity.
  - vm_compute. reflexivity.
  - apply (proj2 (webhook_charge_succeeded_records_donation demo_ext [Byte.x04] demo_sig
                    10 demo_db demo_huge_charge (JObj [("id", JInt 7)]) (JInt 7)
                    (10 ^ 400) 7 "donor@example.org" demo_cause demo_user
                    eq_refl eq_refl eq_refl eq_refl eq_refl eq_refl eq_refl eq_refl
                    eq_refl)).
    exists false. vm_compute. reflexivity.
Defined.

(** A verified charge of 10^400 minor units for a stored cause and a stored
    user is not answered 200 and adds no donation. *)
Lemma huge_charge_is_not_recorded :
  construct_event demo_ext [Byte.x04] demo_sig "whsec_test" 10 = Ok demo_huge_charge
  /\ get_Cause demo_db 7 = Some demo_cause
  /\ first_User_by_email demo_db "donor@example.org" = Some demo_user
  /\ ~ charge_is_recorded demo_ext [Byte.x04] demo_sig 10 demo_db demo_user demo_cause.
Proof.
  repeat split. intros [d [Hrun _]]. vm_compute in Hrun. discriminate Hrun.
Qed.

(** Delivered twice, each time under a header signed for that delivery, the
    example event is credited twice. *)
Lemma redelivery_records_second_donation :
  ~ redelivery_is_idempotent demo_ext [Byte.x00] (demo_sig_at 10) (demo_sig_at 100000)
      10 100000 demo_db.
Proof.
  unfold redelivery_is_idempotent. vm_compute. discriminate.
Qed.

(** The example event delivered at 10 and redelivered at 100000 under a
    fresh header. *)
Lemma webhook_redelivery_repeats_first_delivery_witness :
  exists r db1 db2,
    run (stripe_webhook demo_ext [Byte.x00] (demo_sig_at 10) 10) demo_db = (r, db1, [])
    /\ run (stripe_webhook demo_ext [Byte.x00] (demo_sig_at 100000) 100000) db1
       = (r, db2, [])
    /\ List.length (donations db2) = 2%nat.
Proof.
  destruct (webhook_redelivery_repeats_first_delivery demo_ext [Byte.x00]
              (demo_sig_at 10) (demo_sig_at 100000) 10 100000 demo_db eq_refl)
    as [r [db1 [db2 [H1 [H2 _]]]]].
  exists r, db1, db2. split; [exact H1|]. split; [exact H2|].
  vm_compute in H1. injection H1 as <- <-. vm_compute in H2. injection H2 as <-.
  reflexivity.
Defined.


Lemma webhook_unknown_user_raises_TypeError_witness :
  run (stripe_webhook demo_ext [Byte.x03] demo_sig 10) demo_db
    = (Raise TypeError, demo_db, [])
  /\ http_status (fst (fst (run (stripe_webhook demo_ext [Byte.x03] demo_sig 10) demo_db)))
     = 500.
Proof.
  apply (webhook_unknown_user_raises_TypeError demo_ext [Byte.x03] demo_sig 10 demo_db
           (demo_event "charge.succeeded" (JObj [("id", JInt 7)]) "nobody@example.org")
           (JObj [("id", JInt 7)]) (JInt 2500) (JInt 7) 7 "nobody@example.org");
    reflexivity.
Defined.

(** A token for "42", signed with the secret, on a driver that reads "42"
    as 42, when alice is the only stored user. *)
Lemma guard_unknown_user_is_not_unauthorized_witness :
  run (get_current_user demo_lenient_ext
         (Signed [("user_id", JStr "42")] "signing-secret" "HS256") 0) demo_db
    = (Raise TypeError, demo_db, [])
  /\ error_status TypeError = 500
  /\ error_status credentials_exception = 401.
Proof.
  destruct (guard_unknown_user_is_not_unauthorized demo_lenient_ext
              (Signed [("user_id", JStr "42")] "signing-secret" "HS256") 0
              demo_db {| DataToken.id := Some "42" |} eq_refl)
    as [e [Hrun [_ [_ H401]]]].
  - intros i n Hi Hn. injection Hi as <-. vm_compute in Hn. injection Hn as <-.
    reflexivity.
  - split; [reflexivity|]. split; [reflexivity | exact H401].
Defined.

(** The same wrong password: 401 for a stored username, 400 for an unknown
    one. *)
Lemma login_failure_reveals_username :
  ~ login_failure_hides_username demo_ext demo_db "alice" "bob" "wrong" 0.
Proof.
  unfold login_failure_hides_username. vm_compute. discriminate.
Qed.

Lemma login_outcomes_witness :
  run (login demo_ext "bob" "wrong" 0) demo_db
    = (Raise (HTTPException 400 "Invalid credentials"), demo_db, [])
  /\ run (login demo_ext "alice" "wrong" 0) demo_db
       = (Raise (HTTPException 401 "Invalid credentials"), demo_db, [])
  /\ exists tok,
       run (login demo_ext "alice" "wonderland" 0) demo_db
         = (Ok {| access_token := tok; token_type := "bearer" |}, demo_db, [])
       /\ forall later, exists payload,
            jwt_decode demo_int_of_str tok "signing-secret" [ALGORITHM] later
              = Ok payload
            /\ dict_get payload "user_id" = Some (JInt 1).
Proof.
  split; [|split].
  - apply (proj1 (login_outcomes demo_ext "bob" "wrong" 0 demo_db)). reflexivity.
  - apply (proj1 (proj2 (login_outcomes demo_ext "alice" "wrong" 0 demo_db)) demo_user);
      reflexivity.
  - apply (proj2 (proj2 (login_outcomes demo_ext "alice" "wonderland" 0 demo_db))
             demo_user); reflexivity.
Defined.

Lemma webhook_invalid_signature_rejected_witness :
  run (stripe_webhook demo_ext [Byte.x00] (Some "whsec_forged") 10) demo_db
    = (Raise (HTTPException 400 "Invalid signature"), demo_db, [])
  /\ http_status
       (fst (fst (run (stripe_webhook demo_ext [Byte.x00] (Some "whsec_forged") 10) demo_db)))
     = 400.
Proof.
  apply (webhook_invalid_signature_rejected demo_ext [Byte.x00] (Some "whsec_forged") 10
           demo_db).
  reflexivity.
Defined.

Lemma webhook_other_event_acknowledged_witness :
  run (stripe_webhook demo_ext [Byte.x01] demo_sig 10) demo_db
    = (Ok (Response 200), demo_db, [])
  /\ http_status (fst (fst (run (stripe_webhook demo_ext [Byte.x01] demo_sig 10) demo_db)))
     = 200.
Proof.
  apply (webhook_other_event_acknowledged demo_ext [Byte.x01] demo_sig 10 demo_db
           (demo_event "charge.failed" (JObj [("id", JInt 7)]) "donor@example.org")
           (JStr "charge.failed")); reflexivity.
Defined.

Lemma checkout_unknown_cause_not_found_witness :
  (exists e,
     run (create_checkout_session demo_ext 8) demo_db = (Raise e, demo_db, [])
     /\ e = HTTPException 404 "Cause not found")
  /\ (exists e,
        run (create_checkout_session demo_ext (2 ^ 63)) demo_db = (Raise e, demo_db, [])
        /\ e = DBAPIError).
Proof.
  split.
  - destruct (checkout_unknown_cause_not_found demo_ext 8 demo_db)
      as [e [Hrun [Hin _]]].
    + intros c [<-|[]]. cbn. lia.
    + exists e. split; [exact Hrun|]. apply Hin. reflexivity.
  - destruct (checkout_unknown_cause_not_found demo_ext (2 ^ 63) demo_db)
      as [e [Hrun [_ Hout]]].
    + intros c [<-|[]]. cbn. lia.
    + exists e. split; [exact Hrun|]. apply Hout. reflexivity.
Defined.

(** An id one past the driver's largest integer: no cause has it, and the
    answer is not the 404. *)
Lemma huge_cause_id_is_not_a_404 :
  (forall c, In c (causes demo_db) -> Cause.id c <> 2 ^ 63)
  /\ ~ unknown_cause_is_not_found demo_ext (2 ^ 63) demo_db.
Proof.
  split.
  - intros c [<-|[]]. cbn. lia.
  - unfold unknown_cause_is_not_found. vm_compute. discriminate.
Qed.

(** For contrast with the last one: a stored cause is forwarded to the
    provider, with the cause filed under "cause_id". *)
Example checkout_known_cause_redirects :
  run (create_checkout_session demo_ext 7) demo_db
    = (Ok (RedirectResponse "https://checkout.example/cs_test_1" 303), demo_db,
       [ {| payment_method_types := ["card"];
            mode := "payment";
            success_url := "https://donate.example/donation/payment/success";
            cancel_url := "https://donate.example/donation/payment/cancel";
            line_items := [("price_1QDNjALZvTUR5WIHOFYuOVUs", 1)];
            metadata := checkout_metadata 7 |} ]).
Proof. reflexivity. Qed.

(** A token issued at time 0 and verified a day later. *)
Example verify_one_day_after_issue :
  create_access_token demo_ext [("user_id", JStr "1")] 0
    = Signed [("user_id", JStr "1"); ("expire", JStr "1970-01-01 00:30:00")]
        "signing-secret" "HS256"
  /\ verify_token_access demo_ext (create_access_token demo_ext [("user_id", JStr "1")] 0)
       credentials_exception 86400
     = Ok {| DataToken.id := Some "1" |}.
Proof. split; reflexivity. Qed.

(** A token with the registered claim does expire. *)
Example decode_enforces_registered_expiry :
  jwt_decode demo_int_of_str
    (Signed [("user_id", JStr "1"); ("exp", JInt 1800)] "signing-secret" "HS256")
    "signing-secret" [ALGORITHM] 1801
  = Raise JWTError.
Proof. reflexivity. Qed.

(** * Further properties of the handlers *)

Section TokenProperties.

Variable ext : Externals.

#[local] Abbreviation secret := (SECRET_KEY (settings ext)).

Lemma dict_get_update_same (d : dict) (k : string) (v : json) :
  dict_get (dict_update d k v) k = Some v.
Proof.
  induction d as [|[k0 v0] d IH]; cbn.
  - now rewrite String.eqb_refl.
  - destruct (String.eqb k0 k) eqn:E; cbn; rewrite E; [reflexivity | exact IH].
Qed.

Lemma dict_get_update_diff (d : dict) (k k' : string) (v : json) :
  k' <> k -> dict_get (dict_update d k v) k' = dict_get d k'.
Proof.
  intros Hk. induction d as [|[k0 v0] d IH]; cbn.
  - destruct (String.eqb k k') eqn:E; [|reflexivity].
    apply String.eqb_eq in E. congruence.
  - destruct (String.eqb k0 k) eqn:E0; cbn.
    + apply String.eqb_eq in E0. subst k0.
      destruct (String.eqb k k') eqn:E; [|reflexivity].
      apply String.eqb_eq in E. congruence.
    + destruct (String.eqb k0 k'); [reflexivity | exact IH].
Qed.

(** X1.  Issuing keeps every claim of [data] except "expire", which it sets
    to the formatted deadline (replacing one [data] may already have), and
    signs with the secret and HS256. *)
Theorem issued_token_claims (data : dict) (now : Z) :
  exists claims,
    create_access_token ext data now = Signed claims secret ALGORITHM
    /\ dict_get claims "expire"
       = Some (JStr (strftime (now + ACCESS_TOKEN_EXPIRE_MINUTES * 60)))
    /\ forall k, k <> "expire" -> dict_get claims k = dict_get data k.
Proof.
  eexists. split; [reflexivity|]. split.
  - apply dict_get_update_same.
  - intros k Hk. now apply dict_get_update_diff.
Qed.

(** *** Claim validation *)

Lemma then_ok (r k : result unit) :
  then_ r k = Ok tt <-> r = Ok tt /\ k = Ok tt.
Proof.
  unfold then_. destruct r as [[]|e]; split.
  - intros H. split; [reflexivity | exact H].
  - intros [_ H]. exact H.
  - intros H. discriminate H.
  - intros [H _]. discriminate H.
Qed.


Lemma validate_time_claim_ok (claims : dict) (name : string) (check : Z -> bool)
    (P : Z -> Prop) :
  (forall n, check n = true <-> P n) ->
  validate_time_claim (int_of_str ext) claims name check = Ok tt
  <-> time_claim_accepted (int_of_str ext) claims name P.
Proof.
  intros Hcheck. unfold validate_time_claim, time_claim_accepted.
  destruct (dict_get claims name) as [v|]; [|tauto].
  destruct (py_int (int_of_str ext) v) as [n|e].
  - destruct (check n) eqn:Hn; split.
    + intros _. exists n. split; [reflexivity | now apply Hcheck].
    + reflexivity.
    + discriminate.
    + intros [m [Hm HP]]. injection Hm as <-. apply Hcheck in HP. congruence.
  - split.
    + destruct e; discriminate.
    + intros [m [Hm _]]. discriminate Hm.
Qed.



Lemma validate_str_claim_ok (claims : dict) (name : string) :
  validate_str_claim claims name = Ok tt <-> str_claim_accepted claims name.
Proof.
  unfold validate_str_claim, str_claim_accepted.
  destruct (dict_get claims name) as [[| | |s| |]|]; split; intros H;
    try discriminate H; try reflexivity;
    try (now left); try (right; now exists s);
    destruct H as [H|[s' H]]; discriminate H.
Qed.

Lemma validate_absent_claim_ok (claims : dict) (name : string) :
  validate_absent_claim claims name = Ok tt <-> dict_get claims name = None.
Proof.
  unfold validate_absent_claim. destruct (dict_get claims name); split; intros H;
    try discriminate H; reflexivity.
Qed.



Lemma validate_claims_ok_iff (claims : dict) (now : Z) :
  validate_claims (int_of_str ext) claims now = Ok tt
  <-> claims_accepted (int_of_str ext) claims now.
Proof.
  unfold validate_claims, claims_accepted.
  rewrite !then_ok.
  rewrite (validate_time_claim_ok claims "iat" _ (fun _ => True)) by (intros; tauto).
  rewrite (validate_time_claim_ok claims "nbf" _ (fun n => n <= now))
    by (intros; apply Z.leb_le).
  rewrite (validate_time_claim_ok claims "exp" _ (fun e => now <= e))
    by (intros; apply Z.leb_le).
  rewrite !validate_str_claim_ok, !validate_absent_claim_ok. tauto.
Qed.


(** *** Decoding *)

#[local] Abbreviation decode tok now :=
  (jwt_decode (int_of_str ext) tok secret [ALGORITHM] now).

(** What decoding requires of who signed the token and of its claims. *)
Lemma jwt_decode_ok_inv (tok : token) (now : Z) (claims : dict) :
  decode tok now = Ok claims ->
  tok = Signed claims secret ALGORITHM /\ claims_accepted (int_of_str ext) claims now.
Proof.
  unfold jwt_decode. destruct tok as [cl k alg|]; [|discriminate].
  cbn [existsb]. rewrite orb_false_r.
  destruct (String.eqb k secret) eqn:Ek; [|discriminate].
  destruct (String.eqb alg ALGORITHM) eqn:Ea; [|discriminate].
  apply String.eqb_eq in Ek, Ea. subst k alg. cbn [andb].
  destruct (validate_claims (int_of_str ext) cl now) as [[]|e] eqn:Hv; [|discriminate].
  intros H. injection H as <-. split; [reflexivity|]. now apply validate_claims_ok_iff.
Qed.

Lemma jwt_decode_signed (claims : dict) (now : Z) :
  decode (Signed claims secret ALGORITHM) now
  = match validate_claims (int_of_str ext) claims now with
    | Ok _ => Ok claims
    | Raise e => Raise e
    end.
Proof.
  unfold jwt_decode. rewrite String.eqb_refl. cbn [existsb].
  rewrite String.eqb_refl. reflexivity.
Qed.

Lemma jwt_decode_accepted (claims : dict) (now : Z) :
  claims_accepted (int_of_str ext) claims now ->
  decode (Signed claims secret ALGORITHM) now = Ok claims.
Proof.
  intros Hacc. rewrite jwt_decode_signed.
  apply validate_claims_ok_iff in Hacc. now rewrite Hacc.
Qed.

Lemma jwt_decode_foreign (tok : token) (now : Z) :
  (forall claims, tok <> Signed claims secret ALGORITHM) ->
  decode tok now = Raise JWTError.
Proof.
  intros Hforeign. unfold jwt_decode. destruct tok as [cl k alg|]; [|reflexivity].
  cbn [existsb]. rewrite orb_false_r.
  destruct (String.eqb k secret) eqn:Ek; [|reflexivity].
  destruct (String.eqb alg ALGORITHM) eqn:Ea; [|reflexivity].
  apply String.eqb_eq in Ek, Ea. subst k alg. now elim (Hforeign cl).
Qed.


Lemma verify_foreign (tok : token) (exc : exn) (now : Z) :
  (forall claims, tok <> Signed claims secret ALGORITHM) ->
  verify_token_access ext tok exc now = Raise exc.
Proof.
  intros Hforeign. unfold verify_token_access.
  now rewrite (jwt_decode_foreign tok now Hforeign).
Qed.

(** X2.  A token that was not signed with the process secret under HS256
    (another key, another algorithm, or no token at all) is refused with
    exactly the exception the caller passed in, at any time. *)
Theorem verify_rejects_foreign_token (tok : token) (exc : exn) (now : Z) :
  (forall claims, tok <> Signed claims secret ALGORITHM) ->
  verify_token_access ext tok exc now = Raise exc.
Proof. exact (verify_foreign tok exc now). Qed.

(** What verification returns for a token signed with the secret whose
    registered claims are accepted: it depends on the "user_id" claim
    alone. *)
Lemma verify_signed (claims : dict) (exc : exn) (now : Z) :
  claims_accepted (int_of_str ext) claims now ->
  verify_token_access ext (Signed claims secret ALGORITHM) exc now
  = match dict_get claims "user_id" with
    | None | Some JNull => Raise exc
    | Some (JStr s) => Ok {| DataToken.id := Some s |}
    | Some _ => Raise ValidationError
    end.
Proof.
  intros Hacc. unfold verify_token_access. rewrite (jwt_decode_accepted claims now Hacc).
  destruct (dict_get claims "user_id") as [[| | | | |]|]; cbn; try reflexivity;
    destruct exc; reflexivity.
Qed.

(** X3.  Verification succeeds exactly on a token signed with the secret
    under HS256 whose registered claims the library accepts at that time
    ("iat", "nbf" and "exp" readable as integers, "nbf" not after and "exp"
    not before the time, "sub" and "jti" strings, no "aud" and no "at_hash")
    and whose "user_id" claim is a string; the identity it returns is that
    string, never [None]. *)
Theorem verify_succeeds_iff (tok : token) (exc : exn) (now : Z) (data : DataToken.t) :
  verify_token_access ext tok exc now = Ok data
  <-> exists claims s,
        tok = Signed claims secret ALGORITHM
        /\ claims_accepted (int_of_str ext) claims now
        /\ dict_get claims "user_id" = Some (JStr s)
        /\ data = {| DataToken.id := Some s |}.
Proof.
  split.
  - intros Hok.
    destruct (decode tok now) as [claims|e] eqn:E.
    + apply jwt_decode_ok_inv in E. destruct E as [-> Hacc].
      rewrite (verify_signed claims exc now Hacc) in Hok.
      destruct (dict_get claims "user_id") as [[| | |s| |]|] eqn:Hid;
        try discriminate.
      injection Hok as <-. exists claims, s. auto.
    + unfold verify_token_access in Hok. rewrite E in Hok.
      destruct e; discriminate.
  - intros [claims [s [-> [Hacc [Hid ->]]]]].
    rewrite (verify_signed claims exc now Hacc). now rewrite Hid.
Qed.


End TokenProperties.

Section GuardProperties.

Variable ext : Externals.

Ltac run_handler :=
  unfold run, stripe_webhook, create_checkout_session, login, get_current_user,
    register, list_donations,
    bind, lift, ret, raise, session_get_Cause, select_Cause_by_id,
    select_User_by_email, select_User_by_username, select_User_by_id,
    session_add, session_commit, session_add_commit_refresh_User, provider_create;
  cbn [store pending sent fst snd].

(** X5.  The guard only reads: whatever the token, the stored database is
    unchanged and nothing is sent to the provider.  When it returns a user,
    that user is a stored row, the token verified with a string identity, and
    the row's id is the integer the database read that string as. *)
Theorem guard_reads_only_and_returns_stored_user (tok : token) (now : Z) (db : database) :
  exists r,
    run (get_current_user ext tok now) db = (r, db, [])
    /\ forall u, r = Ok u ->
         In u (users db)
         /\ exists s,
              verify_token_access ext tok credentials_exception now
                = Ok {| DataToken.id := Some s |}
              /\ bind_integer ext (JStr s) = Ok (User.id u).
Proof.
  run_handler.
  destruct (verify_token_access ext tok credentials_exception now) as [[[s|]]|e] eqn:Hv;
    cbn - [bind_integer].
  - destruct (bind_integer ext (JStr s)) as [n|e] eqn:Hn.
    + destruct (first_User_by_id db n) as [row|] eqn:Hrow.
      * eexists. split; [reflexivity|]. intros u Hu. injection Hu as <-.
        apply find_some in Hrow. destruct Hrow as [Hin Hid].
        apply Z.eqb_eq in Hid. split; [exact Hin|].
        exists s. split; [reflexivity|]. now rewrite Hid.
      * eexists. split; [reflexivity|]. discriminate.
    + eexists. split; [reflexivity|]. discriminate.
  - eexists. split; [reflexivity|]. discriminate.
  - eexists. split; [reflexivity|]. discriminate.
Qed.

(** X6.  A token that was not signed with the process secret under HS256 is
    answered with [credentials_exception], a 401, and the stored database is
    unchanged. *)
Theorem guard_rejects_foreign_token (tok : token) (now : Z) (db : database) :
  (forall claims, tok <> Signed claims (SECRET_KEY (settings ext)) ALGORITHM) ->
  run (get_current_user ext tok now) db = (Raise credentials_exception, db, [])
  /\ error_status credentials_exception = 401.
Proof.
  intros Hforeign. run_handler.
  rewrite (verify_foreign ext tok credentials_exception now Hforeign).
  split; reflexivity.
Qed.

(** X7.  The token a successful login returns is not accepted by the guard:
    it carries the id as an integer, [DataToken] refuses it, and the guard
    ends in a [ValidationError], a 500, at any later time. *)
Theorem login_token_refused_by_guard
    (username password : string) (now : Z) (db : database) (row : User.t) :
  first_User_by_username db username = Some row ->
  verify_password ext password (User.password row) = true ->
  exists tok,
    run (login ext username password now) db
      = (Ok {| access_token := tok; token_type := "bearer" |}, db, [])
    /\ forall later db',
         run (get_current_user ext tok later) db' = (Raise ValidationError, db', [])
         /\ error_status ValidationError = 500.
Proof.
  intros Hrow Hpw. eexists. split.
  - run_handler. rewrite Hrow, Hpw. reflexivity.
  - intros later db'. run_handler.
    rewrite (verify_of_integer_identity ext (User.id row) credentials_exception now later).
    split; reflexivity.
Qed.

End GuardProperties.

Section WebhookProperties.

Variable ext : Externals.

#[local] Abbreviation whsec := (STRIPE_ENDPOINT_SECRET (settings ext)).

Ltac unfold_webhook :=
  unfold run, stripe_webhook, bind, lift, ret, raise, session_get_Cause,
    select_User_by_email, session_add, session_commit;
  cbn [store pending sent fst snd].

(** One delivery, by cases: it raises and stores nothing; or it acknowledges
    and stores nothing; or it acknowledges and appends one donation of a
    stored user to a stored cause. *)
Lemma webhook_run_cases
    (payload : list Byte.byte) (sig_header : option string) (now : Z) (db : database) :
  (exists e, run (stripe_webhook ext payload sig_header now) db = (Raise e, db, []))
  \/ run (stripe_webhook ext payload sig_header now) db = (Ok (Response 200), db, [])
  \/ (exists q user cause,
        In user (users db) /\ In cause (causes db)
        /\ run (stripe_webhook ext payload sig_header now) db
           = (Ok (Response 200),
              with_donation db
                {| Donation.id := Some (donation_seq db);
                   Donation.amount := q;
                   Donation.created_at := now;
                   Donation.donor_id := User.id user;
                   Donation.cause_id := Cause.id cause |},
              [])).
Proof.
  unfold_webhook.
  destruct (construct_event ext payload sig_header whsec now) as [event|e0].
  2:{ left. destruct e0; eexists; reflexivity. }
  cbn - [py_path bind_integer bind_text].
  destruct (py_getitem event "type") as [type|e1]; [|left; eexists; reflexivity].
  cbn - [py_path bind_integer bind_text].
  destruct (py_eq_str type "charge.succeeded"); [|right; left; reflexivity].
  destruct (py_path event ["data"; "object"; "metadata"]) as [data|e2];
    [|left; eexists; reflexivity].
  destruct (py_path event ["data"; "object"; "amount"]) as [amount|e3];
    [|left; eexists; reflexivity].
  cbn - [py_path bind_integer bind_text].
  destruct (py_getitem data "id") as [key|e4]; [|left; eexists; reflexivity].
  destruct (bind_integer ext key) as [n|e5]; [|left; eexists; reflexivity].
  cbn - [py_path bind_integer bind_text].
  destruct (py_path event ["data"; "object"; "billing_details"; "email"])
    as [email|e6]; [|left; eexists; reflexivity].
  cbn - [py_path bind_integer bind_text].
  destruct email as [|b|z|t|l|f]; unfold bind_text;
    cbn - [py_path bind_integer];
    try (destruct (coerce_text ext _) as [t|]; cbn - [py_path bind_integer]);
    try (left; eexists; reflexivity);
    (destruct (first_User_by_email db t) as [user|] eqn:Hu;
       cbn - [py_path bind_integer]; [|left; eexists; reflexivity]);
    (destruct (get_Cause db n) as [cause|] eqn:Hc;
       cbn - [py_path bind_integer]; [|left; eexists; reflexivity]);
    (destruct (py_truediv amount 100%positive) as [units|e];
       cbn - [py_path bind_integer]; [|left; eexists; reflexivity]);
    right; right; exists units, user, cause;
    apply find_some in Hu, Hc;
    (split; [apply Hu|]); (split; [apply Hc | reflexivity]).
Qed.

(** X8.  Whatever is delivered, the webhook sends nothing to the provider
    and leaves users and causes as they were.  Either the database is the one
    it found, or the answer is 200 and exactly one donation was appended,
    numbered from the sequence and dated [now].  A delivery that raises has
    stored nothing. *)
Theorem webhook_touches_only_donations
    (payload : list Byte.byte) (sig_header : option string) (now : Z) (db : database) :
  exists r db',
    run (stripe_webhook ext payload sig_header now) db = (r, db', [])
    /\ users db' = users db /\ causes db' = causes db
    /\ (db' = db
        \/ (r = Ok (Response 200) /\
            exists d, db' = with_donation db d
                      /\ Donation.id d = Some (donation_seq db)
                      /\ Donation.created_at d = now))
    /\ (forall e, r = Raise e -> db' = db).
Proof.
  destruct (webhook_run_cases payload sig_header now db)
    as [[e H]|[H|[q [user [cause [_ [_ H]]]]]]]; rewrite H.
  - exists (Raise e), db. repeat split; auto.
  - exists (Ok (Response 200)), db. repeat split; auto.
  - eexists. eexists. split; [reflexivity|]. repeat split.
    + right. split; [reflexivity|]. eexists. repeat split.
    + discriminate.
Qed.

(** X9.  If every stored donation names a stored user and a stored cause, so
    does every donation after a delivery, whatever was delivered. *)
Theorem webhook_keeps_references
    (payload : list Byte.byte) (sig_header : option string) (now : Z) (db : database) :
  donations_reference_stored db ->
  donations_reference_stored
    (snd (fst (run (stripe_webhook ext payload sig_header now) db))).
Proof.
  intros Hinv.
  destruct (webhook_run_cases payload sig_header now db)
    as [[e H]|[H|[q [user [cause [Hu [Hc H]]]]]]]; rewrite H; cbn [fst snd];
    try exact Hinv.
  intros d Hd. cbn in Hd. apply in_app_or in Hd. destruct Hd as [Hd|[<-|[]]].
  - exact (Hinv d Hd).
  - cbn. split; [exists user | exists cause]; auto.
Qed.

(** X10.  When [construct_event] raises, the handler stops there and stores
    nothing: [ValueError] becomes a 400 "Invalid payload", and an exception
    that is neither [ValueError] nor [SignatureVerificationError] leaves the
    handler as it is. *)
Theorem webhook_construct_event_failure
    (payload : list Byte.byte) (sig_header : option string) (now : Z) (db : database)
    (e : exn) :
  construct_event ext payload sig_header whsec now = Raise e ->
  (e = ValueError ->
     run (stripe_webhook ext payload sig_header now) db
       = (Raise (HTTPException 400 "Invalid payload"), db, []))
  /\ (e <> ValueError -> e <> SignatureVerificationError ->
       run (stripe_webhook ext payload sig_header now) db = (Raise e, db, [])).
Proof.
  intros He. unfold_webhook. rewrite He. split.
  - intros ->. reflexivity.
  - intros Hv Hs. destruct e; try reflexivity; congruence.
Qed.

(** X19.  A verified "charge.succeeded" event whose billing e-mail is null
    ends in a [TypeError], a 500, and records nothing, even when its metadata
    names a stored cause: the query compares with NULL, finds no row, and
    [user[0]] is taken of [None]. *)
Theorem webhook_null_billing_email
    (payload : list Byte.byte) (sig_header : option string) (now : Z) (db : database)
    (event data amount key : json) (n : Z) :
  construct_event ext payload sig_header whsec now = Ok event ->
  py_getitem event "type" = Ok (JStr "charge.succeeded") ->
  py_path event ["data"; "object"; "metadata"] = Ok data ->
  py_path event ["data"; "object"; "amount"] = Ok amount ->
  py_getitem data "id" = Ok key ->
  bind_integer ext key = Ok n ->
  py_path event ["data"; "object"; "billing_details"; "email"] = Ok JNull ->
  run (stripe_webhook ext payload sig_header now) db = (Raise TypeError, db, [])
  /\ error_status TypeError = 500.
Proof.
  intros Hev Hty Hdata Hamount Hkey Hn Hemail.
  unfold_webhook. rewrite Hev. cbn - [py_path]. rewrite Hty. cbn - [py_path].
  rewrite Hdata, Hamount. cbn - [py_path]. rewrite Hkey, Hn. cbn - [py_path].
  rewrite Hemail. split; reflexivity.
Qed.

Lemma deliver_each_accumulates
    (payload : list Byte.byte) (sig_header0 : option string) (t0 : Z) (db : database)
    (q : spec_float) (u c : Z) :
  (forall sig_header' now' db',
      construct_event ext payload sig_header' whsec now'
        = construct_event ext payload sig_header0 whsec t0 ->
      users db' = users db -> causes db' = causes db ->
      run (stripe_webhook ext payload sig_header' now') db'
        = (Ok (Response 200),
           with_donation db'
             {| Donation.id := Some (donation_seq db');
                Donation.amount := q;
                Donation.created_at := now';
                Donation.donor_id := u;
                Donation.cause_id := c |},
           [])) ->
  forall deliveries db',
    Forall (fun x => construct_event ext payload (fst x) whsec (snd x)
                     = construct_event ext payload sig_header0 whsec t0) deliveries ->
    users db' = users db -> causes db' = causes db ->
    exists ds,
      donations (deliver_each ext payload deliveries db') = (donations db' ++ ds)%list
      /\ List.length ds = List.length deliveries
      /\ Forall (fun d => Donation.amount d = q /\ Donation.donor_id d = u
                          /\ Donation.cause_id d = c) ds.
Proof.
  intros H deliveries. induction deliveries as [|[sig t] rest IH];
    intros db' Hall Hu Hc; cbn [deliver_each].
  - exists []. rewrite app_nil_r. repeat split. constructor.
  - inversion Hall as [|x l Hx Hrest]; subst. cbn [fst snd] in Hx.
    rewrite (H sig t db' Hx Hu Hc). cbn [fst snd].
    destruct (IH (with_donation db'
                    {| Donation.id := Some (donation_seq db');
                       Donation.amount := q;
                       Donation.created_at := t;
                       Donation.donor_id := u;
                       Donation.cause_id := c |}) Hrest Hu Hc) as [ds [Hds [Hlen Hds']]].
    eexists (_ :: ds). split; [|split].
    + rewrite Hds. cbn [with_donation donations]. rewrite <- app_assoc. reflexivity.
    + cbn. now rewrite Hlen.
    + constructor; [cbn; auto | exact Hds'].
Qed.

(** X11.  If one delivery of a body records a donation, then every further
    delivery of that body which the provider's SDK verifies as it did that
    one (each under its own header, at its own time) records one more: the
    listing of GET /donations/ afterwards is the former listing followed by
    as many donations as there were deliveries, each with the amount, donor
    and cause of the first. *)
Theorem redelivery_accumulates
    (payload : list Byte.byte) (sig_header0 : option string) (t0 : Z) (db : database)
    (d : Donation.t) (deliveries : list (option string * Z)) :
  run (stripe_webhook ext payload sig_header0 t0) db
    = (Ok (Response 200), with_donation db d, []) ->
  Forall (fun x => construct_event ext payload (fst x) whsec (snd x)
                   = construct_event ext payload sig_header0 whsec t0) deliveries ->
  exists ds,
    fst (fst (run list_donations (deliver_each ext payload deliveries db)))
      = Ok (donations db ++ ds)%list
    /\ List.length ds = List.length deliveries
    /\ Forall (fun d' => Donation.amount d' = Donation.amount d
                         /\ Donation.donor_id d' = Donation.donor_id d
                         /\ Donation.cause_id d' = Donation.cause_id d) ds.
Proof.
  intros Hfirst Hall.
  destruct (webhook_outcome_determined ext payload sig_header0 t0 db)
    as [[r H]|[q [u [c H]]]].
  - rewrite (H sig_header0 t0 db eq_refl eq_refl eq_refl) in Hfirst.
    apply (f_equal (fun x => List.length (donations (snd (fst x))))) in Hfirst.
    cbn in Hfirst. rewrite length_app in Hfirst. cbn in Hfirst. lia.
  - pose proof (H sig_header0 t0 db eq_refl eq_refl eq_refl) as H0.
    rewrite H0 in Hfirst.
    assert (Hd : (donations db ++ [d])%list
                 = (donations db ++
                    [ {| Donation.id := Some (donation_seq db);
                         Donation.amount := q;
                         Donation.created_at := t0;
                         Donation.donor_id := u;
                         Donation.cause_id := c |} ])%list).
    { apply (f_equal (fun x => donations (snd (fst x)))) in Hfirst. now symmetry. }
    apply app_inv_head in Hd. injection Hd as ->.
    destruct (deliver_each_accumulates payload sig_header0 t0 db q u c H deliveries db
                Hall eq_refl eq_refl) as [ds [Hds [Hlen Hds']]].
    exists ds. split; [|split; [exact Hlen | exact Hds']].
    unfold run, list_donations. cbn [fst snd store]. now rewrite Hds.
Qed.

End WebhookProperties.

Section CheckoutProperties.

Variable ext : Externals.

Lemma append_inv_head (a x y : string) : a ++ x = a ++ y -> x = y.
Proof.
  induction a as [|ch a IH]; cbn; intros H; [exact H|].
  injection H as H. exact (IH H).
Qed.

Lemma find_some_of_In {A : Type} (p : A -> bool) (l : list A) (x : A) :
  In x l -> p x = true -> exists y, find p l = Some y.
Proof.
  intros Hin Hp. destruct (find p l) as [y|] eqn:E; [now exists y|].
  rewrite (find_none p l E x Hin) in Hp. discriminate.
Qed.

(** X12.  For the id of a stored cause the checkout handler sends exactly
    one request to the provider, with the cause filed under "cause_id", and
    answers with a 303 redirect to the url the provider returned, or with a
    400 carrying the provider's error message; the stored database is
    unchanged either way. *)
Theorem checkout_known_cause_contacts_provider (id : Z) (db : database) :
  (exists c, In c (causes db) /\ Cause.id c = id) ->
  exists request,
    run (create_checkout_session ext id) db
      = (match checkout_Session_create ext request with
         | inl url => Ok (RedirectResponse url 303)
         | inr message => Raise (HTTPException 400 message)
         end, db, [request])
    /\ metadata request = checkout_metadata id
    /\ line_items request = [("price_1QDNjALZvTUR5WIHOFYuOVUs", 1)].
Proof.
  intros [c [Hin Hid]].
  destruct (find_some_of_In (fun c => Cause.id c =? id) (causes db) c Hin) as [c' Hc'].
  { now apply Z.eqb_eq. }
  unfold run, create_checkout_session, bind, ret, raise, select_Cause_by_id,
    provider_create, get_Cause.
  cbn [store pending sent]. rewrite Hc'. cbn [store pending sent app].
  exists {| payment_method_types := ["card"];
            mode := "payment";
            success_url := SERVER_URL (settings ext) ++ "/donation/payment/success";
            cancel_url := SERVER_URL (settings ext) ++ "/donation/payment/cancel";
            line_items := [("price_1QDNjALZvTUR5WIHOFYuOVUs", 1)];
            metadata := checkout_metadata id |}.
  split; [|split; reflexivity].
  destruct (checkout_Session_create ext _); reflexivity.
Qed.

(** X13.  Every request the checkout handler sends names, as the page to
    return to after payment, the path [success_view] is served under; the
    page it names for a cancelled payment is not the path [cancel_view] is
    served under, whatever the server's base url. *)
Theorem checkout_return_urls (id : Z) (db : database) (request : checkout_request) :
  In request (snd (run (create_checkout_session ext id) db)) ->
  success_url request = SERVER_URL (settings ext) ++ success_view_path
  /\ cancel_url request <> SERVER_URL (settings ext) ++ cancel_view_path.
Proof.
  unfold run, create_checkout_session, bind, ret, raise, select_Cause_by_id,
    provider_create.
  cbn [store pending sent]. destruct (get_Cause db id) as [c|]; cbn [snd sent app].
  - destruct (checkout_Session_create ext _); cbn [snd sent];
      (intros [<-|[]]; cbn [success_url cancel_url]; split; [reflexivity|];
       intros H; apply append_inv_head in H; discriminate H).
  - unfold bind_integer. destruct (integer_in_range ext id); intros [].
Qed.

(** X20.  The payment page and the checkout handler agree on every id, and
    neither changes the stored database.  Either the page is rendered with a
    stored cause of that id and the checkout sends one request to the
    provider; or no cause has the id, the driver takes it, and both answer 404
    "Cause not found"; or no cause has the id, the driver refuses it, and both
    end in the driver's error.  In the last two cases the provider is not
    contacted. *)
Theorem payment_page_and_checkout_agree (id : Z) (db : database) :
  (exists c request,
     In c (causes db) /\ Cause.id c = id
     /\ run (render_payment_ui ext id) db
        = (Ok (TemplateResponse "donation_payment_ui.html" c), db, [])
     /\ snd (run (create_checkout_session ext id) db) = [request]
     /\ snd (fst (run (create_checkout_session ext id) db)) = db)
  \/ (integer_in_range ext id = true
      /\ run (render_payment_ui ext id) db
         = (Raise (HTTPException 404 "Cause not found"), db, [])
      /\ run (create_checkout_session ext id) db
         = (Raise (HTTPException 404 "Cause not found"), db, []))
  \/ (integer_in_range ext id = false
      /\ run (render_payment_ui ext id) db = (Raise DBAPIError, db, [])
      /\ run (create_checkout_session ext id) db = (Raise DBAPIError, db, [])).
Proof.
  unfold run, render_payment_ui, create_checkout_session, bind, ret, raise,
    select_Cause_by_id, provider_create.
  cbn [store pending sent]. destruct (get_Cause db id) as [c|] eqn:Hc.
  - left. apply find_some in Hc. destruct Hc as [Hin Hid]. apply Z.eqb_eq in Hid.
    exists c. eexists. split; [exact Hin|]. split; [exact Hid|].
    split; [reflexivity|]. cbn [store pending sent app].
    destruct (checkout_Session_create ext _); cbn; split; reflexivity.
  - right. unfold bind_integer. destruct (integer_in_range ext id).
    + left. repeat split.
    + right. repeat split.
Qed.

End CheckoutProperties.

Section RegistrationProperties.

Variable ext : Externals.
Variable hash_pass : string -> string.

Ltac unfold_register :=
  unfold run, register, login, bind, ret, raise, select_User_by_email,
    select_User_by_username, session_add_commit_refresh_User, bind_text;
  cbn [store pending sent flush fst snd].

(** The row POST /register/ stores for [user] under [key]. *)
#[local] Abbreviation new_row user key :=
  {| User.id := key;
     User.username := UserCreate.username user;
     User.email := UserCreate.email user;
     User.password := hash_pass (UserCreate.password user) |}.

#[local] Abbreviation with_user db row :=
  {| users := users db ++ [row];
     causes := causes db;
     donations := donations db;
     donation_seq := donation_seq db |}.

Lemma NoDup_snoc {A : Type} (l : list A) (a : A) :
  NoDup l -> ~ In a l -> NoDup (l ++ [a]).
Proof.
  induction l as [|x l IH]; cbn; intros Hnd Hnin.
  - constructor; [intros [] | constructor].
  - inversion Hnd as [|y l' Hx Hl]; subst. constructor.
    + intros Hin. apply in_app_or in Hin. destruct Hin as [Hin|[Hin|[]]].
      * contradiction.
      * apply Hnin. now left.
    + apply IH; [exact Hl|]. intros Hin. apply Hnin. now right.
Qed.

Lemma register_fresh_email (user : UserCreate.t) (key : Z) (db : database) :
  first_User_by_email db (UserCreate.email user) = None ->
  run (register ext hash_pass user key) db
    = (Ok (new_row user key), with_user db (new_row user key), []).
Proof.
  intros Hnone. unfold_register. now rewrite Hnone.
Qed.

Lemma register_taken_email (user : UserCreate.t) (key : Z) (db : database) (row : User.t) :
  first_User_by_email db (UserCreate.email user) = Some row ->
  run (register ext hash_pass user key) db
    = (Raise (HTTPException 400 "Email already registered"), db, []).
Proof.
  intros Hsome. unfold_register. now rewrite Hsome.
Qed.

(** X14.  Registering an e-mail that a stored user already has is answered
    400 "Email already registered" and stores nothing. *)
Theorem register_duplicate_email_rejected
    (user : UserCreate.t) (key : Z) (db : database) :
  (exists u, In u (users db) /\ User.email u = UserCreate.email user) ->
  run (register ext hash_pass user key) db
    = (Raise (HTTPException 400 "Email already registered"), db, []).
Proof.
  intros [u [Hin He]].
  destruct (find_some_of_In (fun u => String.eqb (User.email u) (UserCreate.email user))
              (users db) u Hin) as [row Hrow].
  { now apply String.eqb_eq. }
  now apply (register_taken_email user key db row).
Qed.

Lemma register_new_email_stored
    (user : UserCreate.t) (key : Z) (db : database) :
  (forall u, In u (users db) -> User.email u <> UserCreate.email user) ->
  run (register ext hash_pass user key) db
    = (Ok (new_row user key), with_user db (new_row user key), []).
Proof.
  intros Hfresh. apply register_fresh_email. apply find_none_iff.
  intros u Hu. apply String.eqb_neq. now apply Hfresh.
Qed.

(** X15.  Registering an e-mail no stored user has appends one user row,
    under the key the database assigns, with the given username and e-mail
    and with the hash of the password in place of the password; causes and
    donations are untouched, and the row, hash included, is what the handler
    returns. *)
Theorem register_stores_hashed_password
    (user : UserCreate.t) (key : Z) (db : database) :
  (forall u, In u (users db) -> User.email u <> UserCreate.email user) ->
  run (register ext hash_pass user key) db
    = (Ok (new_row user key), with_user db (new_row user key), []).
Proof. exact (register_new_email_stored user key db). Qed.

(** X16.  Registration keeps e-mails unique: if no two stored users share an
    e-mail, none do after a registration, accepted or refused. *)
Theorem register_keeps_emails_unique (user : UserCreate.t) (key : Z) (db : database) :
  NoDup (map User.email (users db)) ->
  NoDup (map User.email (users (snd (fst (run (register ext hash_pass user key) db))))).
Proof.
  intros Hnodup.
  destruct (first_User_by_email db (UserCreate.email user)) as [row|] eqn:E.
  - now rewrite (register_taken_email user key db row E).
  - rewrite (register_fresh_email user key db E). cbn [fst snd users].
    rewrite map_app. cbn [map User.email].
    apply NoDup_snoc; [exact Hnodup|].
    intros Hin. apply in_map_iff in Hin. destruct Hin as [u [He Hu]].
    pose proof (find_none _ _ E u Hu) as Hne. cbn in Hne.
    apply String.eqb_neq in Hne. contradiction.
Qed.

Lemma find_snoc_none {A : Type} (p : A -> bool) (l : list A) (x : A) :
  find p l = None -> find p (l ++ [x]) = if p x then Some x else None.
Proof.
  induction l as [|y l IH]; cbn; [reflexivity|].
  destruct (p y); [discriminate | exact IH].
Qed.

Lemma find_app_some {A : Type} (p : A -> bool) (l l' : list A) (y : A) :
  find p l = Some y -> find p (l ++ l') = Some y.
Proof.
  induction l as [|z l IH]; cbn; [discriminate|].
  destruct (p z); [trivial | exact IH].
Qed.

(** X17.  Register, then log in.  When neither the e-mail nor the username
    is taken, and the password verifier accepts a password against its own
    hash, a login with the registered username and password on the database
    the registration left succeeds, and the token it returns is the one issued
    for the key of the new row. *)
Theorem register_then_login
    (user : UserCreate.t) (key now : Z) (db : database) :
  (forall u, In u (users db) -> User.email u <> UserCreate.email user) ->
  (forall u, In u (users db) -> User.username u <> UserCreate.username user) ->
  verify_password ext (UserCreate.password user) (hash_pass (UserCreate.password user))
    = true ->
  let db' := snd (fst (run (register ext hash_pass user key) db)) in
  run (login ext (UserCreate.username user) (UserCreate.password user) now) db'
    = (Ok {| access_token := create_access_token ext [("user_id", JInt key)] now;
             token_type := "bearer" |},
       db', []).
Proof.
  intros Hemail Hname Hpw.
  rewrite (register_new_email_stored user key db Hemail). cbn [fst snd].
  unfold_register. unfold first_User_by_username. cbn [users].
  rewrite find_snoc_none.
  - cbn [User.username]. rewrite String.eqb_refl. cbn [User.password User.id].
    now rewrite Hpw.
  - apply find_none_iff. intros u Hu. apply String.eqb_neq. now apply Hname.
Qed.

(** X18.  Registration does not look at usernames.  A registration under a
    username that a stored user already has is accepted when the e-mail is
    new; a login with that username is then checked against the earlier
    user's hash, so the new user's password is refused with a 401 unless it
    verifies against that hash. *)
Theorem register_taken_username_is_shadowed
    (user : UserCreate.t) (key now : Z) (db : database) (earlier : User.t) :
  first_User_by_username db (UserCreate.username user) = Some earlier ->
  (forall u, In u (users db) -> User.email u <> UserCreate.email user) ->
  verify_password ext (UserCreate.password user) (User.password earlier) = false ->
  run (register ext hash_pass user key) db
    = (Ok (new_row user key), with_user db (new_row user key), [])
  /\ run (login ext (UserCreate.username user) (UserCreate.password user) now)
         (with_user db (new_row user key))
     = (Raise (HTTPException 401 "Invalid credentials"),
        with_user db (new_row user key), []).
Proof.
  intros Hearlier Hemail Hpw. split.
  - exact (register_new_email_stored user key db Hemail).
  - unfold_register. unfold first_User_by_username in *. cbn [users].
    rewrite (find_app_some _ _ _ _ Hearlier). now rewrite Hpw.
Qed.

End RegistrationProperties.

(** * The further properties on the small deployment *)

Lemma verify_rejects_foreign_token_witness :
  verify_token_access demo_ext
    (Signed [("user_id", JStr "1")] "another-secret" "HS256") credentials_exception 0
  = Raise credentials_exception.
Proof.
  apply (verify_rejects_foreign_token demo_ext
           (Signed [("user_id", JStr "1")] "another-secret" "HS256")
           credentials_exception 0).
  intros claims H. discriminate H.
Defined.

(** A token not valid before 1000 whose expiry is spelt "1800", verified at
    1500. *)
Lemma verify_succeeds_iff_witness :
  verify_token_access demo_ext
    (Signed [("user_id", JStr "1"); ("nbf", JInt 1000); ("exp", JStr "1800")]
       "signing-secret" "HS256")
    credentials_exception 1500
  = Ok {| DataToken.id := Some "1" |}.
Proof.
  apply (proj2 (verify_succeeds_iff demo_ext _ credentials_exception 1500 _)).
  exists [("user_id", JStr "1"); ("nbf", JInt 1000); ("exp", JStr "1800")], "1".
  split; [reflexivity|]. split; [|split; reflexivity].
  apply (proj1 (validate_claims_ok_iff demo_ext _ _)). reflexivity.
Defined.


(** With a driver that reads "1" as 1, a token for "1" brings back alice. *)
Lemma guard_reads_only_and_returns_stored_user_witness :
  exists r,
    run (get_current_user demo_lenient_ext
           (Signed [("user_id", JStr "1")] "signing-secret" "HS256") 0) demo_db
      = (r, demo_db, [])
    /\ r = Ok demo_user
    /\ In demo_user (users demo_db).
Proof.
  destruct (guard_reads_only_and_returns_stored_user demo_lenient_ext
              (Signed [("user_id", JStr "1")] "signing-secret" "HS256") 0 demo_db)
    as [r [Hrun Hsound]].
  exists r. split; [exact Hrun|].
  assert (Hr : r = Ok demo_user).
  { vm_compute in Hrun. now injection Hrun as <-. }
  split; [exact Hr|]. exact (proj1 (Hsound demo_user Hr)).
Defined.

Lemma guard_rejects_foreign_token_witness :
  run (get_current_user demo_ext (Malformed "not.a.token") 0) demo_db
    = (Raise credentials_exception, demo_db, [])
  /\ error_status credentials_exception = 401.
Proof.
  apply (guard_rejects_foreign_token demo_ext (Malformed "not.a.token") 0 demo_db).
  intros claims H. discriminate H.
Defined.

Lemma login_token_refused_by_guard_witness :
  exists tok,
    run (login demo_ext "alice" "wonderland" 0) demo_db
      = (Ok {| access_token := tok; token_type := "bearer" |}, demo_db, [])
    /\ forall later db',
         run (get_current_user demo_ext tok later) db' = (Raise ValidationError, db', [])
         /\ error_status ValidationError = 500.
Proof.
  apply (login_token_refused_by_guard demo_ext "alice" "wonderland" 0 demo_db demo_user);
    reflexivity.
Defined.

Lemma webhook_keeps_references_witness :
  donations_reference_stored
    (snd (fst (run (stripe_webhook demo_ext [Byte.x00] demo_sig 20)
                 (with_donation demo_db demo_donation)))).
Proof.
  apply (webhook_keeps_references demo_ext [Byte.x00] demo_sig 20
           (with_donation demo_db demo_donation)).
  intros d [<-|[]]. split; [exists demo_user | exists demo_cause]; cbn; auto.
Defined.

Lemma webhook_construct_event_failure_witness :
  run (stripe_webhook demo_broken_sdk_ext [] None 0) demo_db
    = (Raise (HTTPException 400 "Invalid payload"), demo_db, [])
  /\ run (stripe_webhook demo_broken_sdk_ext [Byte.x00] None 0) demo_db
     = (Raise TypeError, demo_db, []).
Proof.
  split.
  - apply (proj1 (webhook_construct_event_failure demo_broken_sdk_ext [] None 0 demo_db
                    ValueError eq_refl)). reflexivity.
  - apply (proj2 (webhook_construct_event_failure demo_broken_sdk_ext [Byte.x00] None 0
                    demo_db TypeError eq_refl)); discriminate.
Defined.

Lemma webhook_null_billing_email_witness :
  run (stripe_webhook demo_anonymous_ext [] None 10) demo_db
    = (Raise TypeError, demo_db, [])
  /\ error_status TypeError = 500.
Proof.
  apply (webhook_null_billing_email demo_anonymous_ext [] None 10 demo_db
           demo_anonymous_charge (JObj [("id", JInt 7)]) (JInt 2500) (JInt 7) 7);
    reflexivity.
Defined.

(** The example event delivered at 10, then redelivered three times, hours
    apart, each time under a fresh header: three more donations of 25.0. *)
Lemma redelivery_accumulates_witness :
  exists ds,
    fst (fst (run list_donations
                (deliver_each demo_ext [Byte.x00]
                   [(demo_sig_at 3600, 3600); (demo_sig_at 7200, 7200);
                    (demo_sig_at 100000, 100000)] demo_db)))
      = Ok (donations demo_db ++ ds)%list
    /\ List.length ds = 3%nat
    /\ Forall (fun d' => Donation.amount d' = Donation.amount demo_donation
                         /\ Donation.donor_id d' = 1
                         /\ Donation.cause_id d' = 7) ds.
Proof.
  apply (redelivery_accumulates demo_ext [Byte.x00] (demo_sig_at 10) 10 demo_db
           demo_donation
           [(demo_sig_at 3600, 3600); (demo_sig_at 7200, 7200);
            (demo_sig_at 100000, 100000)]).
  - reflexivity.
  - repeat constructor.
Defined.

Lemma checkout_known_cause_contacts_provider_witness :
  exists request,
    run (create_checkout_session demo_lenient_ext 7) demo_db
      = (match checkout_Session_create demo_lenient_ext request with
         | inl url => Ok (RedirectResponse url 303)
         | inr message => Raise (HTTPException 400 message)
         end, demo_db, [request])
    /\ metadata request = checkout_metadata 7
    /\ line_items request = [("price_1QDNjALZvTUR5WIHOFYuOVUs", 1)].
Proof.
  apply (checkout_known_cause_contacts_provider demo_lenient_ext 7 demo_db).
  exists demo_cause. split; [now left | reflexivity].
Defined.

Lemma checkout_return_urls_witness :
  "https://donate.example/donation/payment/success"
    = "https://donate.example" ++ success_view_path
  /\ "https://donate.example/donation/payment/cancel"
     <> "https://donate.example" ++ cancel_view_path.
Proof.
  apply (checkout_return_urls demo_ext 7 demo_db
           {| payment_method_types := ["card"];
              mode := "payment";
              success_url := "https://donate.example/donation/payment/success";
              cancel_url := "https://donate.example/donation/payment/cancel";
              line_items := [("price_1QDNjALZvTUR5WIHOFYuOVUs", 1)];
              metadata := checkout_metadata 7 |}).
  left. reflexivity.
Defined.

Lemma register_duplicate_email_rejected_witness :
  run (register demo_ext demo_hash_pass
         {| UserCreate.username := "eve";
            UserCreate.email := "donor@example.org";
            UserCreate.password := "apple" |} 2) demo_db
    = (Raise (HTTPException 400 "Email already registered"), demo_db, []).
Proof.
  apply (register_duplicate_email_rejected demo_ext demo_hash_pass _ 2 demo_db).
  exists demo_user. split; [now left | reflexivity].
Defined.

Lemma register_stores_hashed_password_witness :
  run (register demo_ext demo_hash_pass demo_newcomer 2) demo_db
    = (Ok {| User.id := 2; User.username := "bob"; User.email := "bob@example.org";
             User.password := "hash:builder" |},
       {| users := [demo_user;
                    {| User.id := 2; User.username := "bob";
                       User.email := "bob@example.org";
                       User.password := "hash:builder" |}];
          causes := [demo_cause];
          donations := [];
          donation_seq := 1 |},
       []).
Proof.
  apply (register_stores_hashed_password demo_ext demo_hash_pass demo_newcomer 2 demo_db).
  intros u [<-|[]]. discriminate.
Defined.

Lemma register_keeps_emails_unique_witness :
  NoDup (map User.email
           (users (snd (fst (run (register demo_ext demo_hash_pass demo_newcomer 2)
                               demo_db))))).
Proof.
  apply (register_keeps_emails_unique demo_ext demo_hash_pass demo_newcomer 2 demo_db).
  cbn. constructor; [intros [] | constructor].
Defined.

Lemma register_then_login_witness :
  run (login demo_ext "bob" "builder" 0)
      (snd (fst (run (register demo_ext demo_hash_pass demo_newcomer 2) demo_db)))
    = (Ok {| access_token := create_access_token demo_ext [("user_id", JInt 2)] 0;
             token_type := "bearer" |},
       snd (fst (run (register demo_ext demo_hash_pass demo_newcomer 2) demo_db)), []).
Proof.
  apply (register_then_login demo_ext demo_hash_pass demo_newcomer 2 0 demo_db).
  - intros u [<-|[]]. discriminate.
  - intros u [<-|[]]. discriminate.
  - reflexivity.
Defined.

Lemma register_taken_username_is_shadowed_witness :
  fst (fst (run (register demo_ext demo_hash_pass demo_namesake 2) demo_db))
    = Ok {| User.id := 2; User.username := "alice";
            User.email := "alice2@example.org";
            User.password := "hash:looking-glass" |}
  /\ fst (fst (run (login demo_ext "alice" "looking-glass" 0)
                 (snd (fst (run (register demo_ext demo_hash_pass demo_namesake 2)
                              demo_db)))))
     = Raise (HTTPException 401 "Invalid credentials").
Proof.
  destruct (register_taken_username_is_shadowed demo_ext demo_hash_pass demo_namesake
              2 0 demo_db demo_user eq_refl) as [Hreg Hlogin].
  - intros u [<-|[]]. discriminate.
  - reflexivity.
  - rewrite Hreg. cbn [fst snd]. split; [reflexivity|].
    exact (f_equal (fun x => fst (fst x)) Hlogin).
Defined.
